(** * Campaign automation: the rule evaluation engine

    A shallow embedding of [src/lib/automationEngine.ts],
    [src/lib/metaAdsService.ts] (metric derivation and the action executor)
    and [src/app/api/automation/rules/route.ts] (the rule-management
    handlers), followed by the properties of the specification that are
    settled against it. A second part embeds the log queries and the
    statistics of the engine, the rule display of the [AutomationRules]
    component, the condition list of [src/components/CreateRuleModal.tsx]
    and the timer of [src/lib/scheduler.ts], with their properties.

    Conventions of the embedding:
    - a JavaScript [number] is an IEEE-754 binary64 value ([spec_float] with
      precision 53 and maximal exponent 1024), so [NaN], the infinities and
      rounding are those of the running program;
    - string-literal unions of the TypeScript types (comparison operators,
      logical operators, action types) are strings, as they are at run time
      and as the [switch] statements with a [default] branch treat them;
    - the static fields of [AutomationEngine] and what the engine does to
      its environment (console warnings, calls of the action executor,
      draws of [uuidv4()], reads of [new Date()]) form one explicit state
      threaded through a small state monad;
    - [parseFloat], [parseInt], [uuidv4], the clock and the network calls
      are not code of the repository: they are the fields of a class
      [Environment] over which the engine is defined;
    - of the console only the [console.warn] channel is kept, which
      [evaluateCondition] writes to; the progress lines of [console.log] and
      [console.error] carry no state and are left out. *)

From Stdlib Require Import ZArith Bool List Ascii String Lia.
From Stdlib Require Import Floats.SpecFloat.
From stdpp Require Import base option list strings pretty gmap.
From stdpp Require Import sorting.

Local Open Scope string_scope.
Local Open Scope list_scope.

(** ** JavaScript numbers *)

Definition number : Type := spec_float.

Module JsNumber.

Definition prec : Z := 53.
Definition emax : Z := 1024.

Definition NaN : number := S754_nan.
Definition Infinity : number := S754_infinity false.

(** An integer that a double holds exactly (|z| < 2^53 in every use). *)
Definition of_Z (z : Z) : number := binary_normalize prec emax z 0 false.

(** The decimal literal [digits * 10^-frac]: both operands of the
    division are exact, so the correctly rounded quotient is the double
    nearest to the literal, which is how a literal is read. *)
Definition literal (digits : Z) (frac : Z) : number :=
  SFdiv prec emax (of_Z digits) (of_Z (10 ^ frac)).

Definition zero : number := of_Z 0.

Definition sub (x y : number) : number := SFsub prec emax x y.
Definition mul (x y : number) : number := SFmul prec emax x y.
Definition div (x y : number) : number := SFdiv prec emax x y.

(** [x < y], [x <= y], [x > y], [x >= y]: false as soon as one side is
    [NaN]. *)
Definition lt (x y : number) : bool := SFltb x y.
Definition le (x y : number) : bool := SFleb x y.
Definition gt (x y : number) : bool := SFltb y x.
Definition ge (x y : number) : bool := SFleb y x.

Definition isNaN (x : number) : bool :=
  match x with S754_nan => true | _ => false end.

(** [x === 0] for a number: both signed zeros. *)
Definition is_zero (x : number) : bool :=
  match x with S754_zero _ => true | _ => false end.

(** The exact value [m * 2^e] of a finite double lies within half a unit
    in the last place of the fraction [p / q]. *)
Definition nearest_to (x : number) (p q : Z) : bool :=
  match x with
  | S754_finite false m e =>
      (bounded prec emax m e
       && (2 * Z.abs (Z.pos m * q - p * 2 ^ (- e)) <=? q)%Z)%bool
  | _ => false
  end.

(** The exact value of [x] is below 1/1000, in integer arithmetic:
    [m * 2^e < 1/1000] is [1000 * m < 2^(-e)], which needs [e < 0]. *)
Definition below_thousandth (x : number) : bool :=
  match x with
  | S754_zero _ => true
  | S754_infinity negative => negative
  | S754_nan => false
  | S754_finite true _ _ => true
  | S754_finite false m e => ((e <? 0) && (1000 * Z.pos m <? 2 ^ (- e)))%Z
  end.

(** A well-formed double: a finite one has a 53-bit mantissa, shorter only
    at the least exponent, and an exponent in range. *)
Definition well_formed (x : number) : bool := valid_binary prec emax x.

End JsNumber.

Definition Math_abs (x : number) : number := SFabs x.

(** ** The types of [src/types/index.ts] *)

Definition ComparisonOperator : Type := string.
Definition LogicalOperator : Type := string.
Definition ActionType : Type := string.

(** ** [AutomationEngine.compareValues] *)

Definition compareValues
    (actualValue : number) (operator : ComparisonOperator)
    (expectedValue : number) : bool :=
  if String.eqb operator ">" then JsNumber.gt actualValue expectedValue
  else if String.eqb operator "<" then JsNumber.lt actualValue expectedValue
  else if String.eqb operator ">=" then JsNumber.ge actualValue expectedValue
  else if String.eqb operator "<=" then JsNumber.le actualValue expectedValue
  else if String.eqb operator "=" then
    JsNumber.lt (Math_abs (JsNumber.sub actualValue expectedValue))
                (JsNumber.literal 1 3)
  else if String.eqb operator "!=" then
    JsNumber.ge (Math_abs (JsNumber.sub actualValue expectedValue))
                (JsNumber.literal 1 3)
  else false.


(** ** The data model *)

(** A value of [Record<string, string | number | boolean>]. *)
Inductive Scalar : Type :=
  | SString (s : string)
  | SNumber (n : number)
  | SBoolean (b : bool).

Module Campaign.
Record t : Type := mk {
  id : string;
  name : string;
  status : string;
  objective : string;
  created_time : string;
  updated_time : string
}.
End Campaign.

Module Action.
Record t : Type := mk {
  action_type : string;
  value : string
}.
End Action.

Module CampaignInsights.
Record t : Type := mk {
  spend : string;
  actions : option (list Action.t);
  clicks : string;
  impressions : string;
  ctr : string;
  cpc : string;
  cpm : string;
  reach : string;
  frequency : string;
  date_start : string;
  date_stop : string
}.
End CampaignInsights.

Module RuleCondition.
Record t : Type := mk {
  id : string;
  field : string;
  operator : ComparisonOperator;
  value : number;
  logicalOperator : option LogicalOperator
}.
End RuleCondition.

(** [Omit<RuleCondition, 'id'>], what a creation request carries. *)
Module ConditionForm.
Record t : Type := mk {
  field : string;
  operator : ComparisonOperator;
  value : number;
  logicalOperator : option LogicalOperator
}.
End ConditionForm.

Module RuleAction.
Record t : Type := mk {
  type : ActionType;
  parameters : option (gmap string Scalar)
}.
End RuleAction.

Module AutomationRule.
Record t : Type := mk {
  id : string;
  name : string;
  description : option string;
  campaignId : string;
  conditions : list RuleCondition.t;
  action : RuleAction.t;
  isActive : bool;
  createdAt : string;
  updatedAt : string;
  lastTriggered : option string
}.

(** [rule.lastTriggered = stamp] *)
Definition set_lastTriggered (stamp : string) (rule : t) : t :=
  mk (id rule) (name rule) (description rule) (campaignId rule)
     (conditions rule) (action rule) (isActive rule) (createdAt rule)
     (updatedAt rule) (Some stamp).
End AutomationRule.

(** [Partial<AutomationRule>]: a key that is absent is [None]. *)
Module PartialRule.
Record t : Type := mk {
  id : option string;
  name : option string;
  description : option string;
  campaignId : option string;
  conditions : option (list RuleCondition.t);
  action : option RuleAction.t;
  isActive : option bool;
  createdAt : option string;
  updatedAt : option string;
  lastTriggered : option string
}.

Definition empty : t :=
  mk None None None None None None None None None None.
End PartialRule.

(** The argument of [addRule]: a rule without [id], [createdAt],
    [updatedAt], whose conditions have no [id] yet. *)
Module RuleForm.
Record t : Type := mk {
  name : string;
  description : option string;
  campaignId : string;
  conditions : list ConditionForm.t;
  action : RuleAction.t;
  isActive : bool;
  lastTriggered : option string
}.
End RuleForm.

Module CalculatedMetrics.
Record t : Type := mk {
  roas : option number;
  costPerAction : option number;
  conversionRate : option number
}.
End CalculatedMetrics.

Module CampaignWithInsights.
Record t : Type := mk {
  campaign : Campaign.t;
  insights : option CampaignInsights.t;
  calculatedMetrics : CalculatedMetrics.t;
  lastUpdated : string
}.
End CampaignWithInsights.

Module AutomationLog.
Record t : Type := mk {
  id : string;
  ruleId : string;
  campaignId : string;
  action : ActionType;
  triggered : bool;
  reason : string;
  timestamp : string;
  metadata : option (gmap string Scalar)
}.
End AutomationLog.

(** ** The action executor, [MetaAdsService.executeAction] *)

(** What a [catch] clause receives: an [Error] with its message, or any
    other thrown value. *)
Inductive Thrown : Type :=
  | ErrorObject (message : string)
  | OtherValue.

(** [error instanceof Error ? error.message : fallback] *)
Definition messageOr (fallback : string) (error : Thrown) : string :=
  match error with
  | ErrorObject message => message
  | OtherValue => fallback
  end.

Module ActionResult.
Record t : Type := mk {
  success : bool;
  action : string;
  simulated : bool
}.
End ActionResult.

Inductive Settled (A : Type) : Type :=
  | Resolved (value : A)
  | Rejected (error : Thrown).
Arguments Resolved {A} value.
Arguments Rejected {A} error.

Module ActionCall.
Record t : Type := mk {
  campaignId : string;
  action : string;
  parameters : option (gmap string Scalar)
}.
End ActionCall.

(** The executor of the repository only simulates the call: it prints the
    request it would send and reports success, whatever the action. *)
Definition simulatedExecuteAction
    (campaignId : string) (action : string)
    (parameters : option (gmap string Scalar)) : Settled ActionResult.t :=
  Resolved (ActionResult.mk true action true).

(** ** The state of the engine and of its environment *)

Record Engine : Type := mkEngine {
  rules : list AutomationRule.t;      (* AutomationEngine.rules *)
  logs : list AutomationLog.t;        (* AutomationEngine.logs *)
  warnings : list string;             (* lines written by console.warn *)
  executed : list ActionCall.t;       (* calls of the action executor *)
  uuid_draws : nat;                   (* uuidv4() calls so far *)
  date_reads : nat                    (* new Date() reads so far *)
}.

Definition initial : Engine := mkEngine [] [] [] [] 0 0.

Definition M (A : Type) : Type := Engine -> A * Engine.

Definition ret {A : Type} (a : A) : M A := fun st => (a, st).

Definition bind {A B : Type} (m : M A) (k : A -> M B) : M B :=
  fun st => let (a, st') := m st in k a st'.

Notation "'let*' x ':=' m 'in' k" :=
  (bind m (fun x => k))
  (at level 10, x name, m at level 100, k at level 200).
Notation "m ';;' k" :=
  (bind m (fun _ => k))
  (at level 100, k at level 200, right associativity).

Definition get : M Engine := fun st => (st, st).

Definition set_rules (rs : list AutomationRule.t) : M unit := fun st =>
  (tt, mkEngine rs (logs st) (warnings st) (executed st)
                (uuid_draws st) (date_reads st)).

Definition set_logs (ls : list AutomationLog.t) : M unit := fun st =>
  (tt, mkEngine (rules st) ls (warnings st) (executed st)
                (uuid_draws st) (date_reads st)).

Definition console_warn (lines : list string) : M unit := fun st =>
  (tt, mkEngine (rules st) (logs st) (warnings st ++ lines) (executed st)
                (uuid_draws st) (date_reads st)).

Definition record_call (call : ActionCall.t) : M unit := fun st =>
  (tt, mkEngine (rules st) (logs st) (warnings st) (executed st ++ [call])
                (uuid_draws st) (date_reads st)).

Fixpoint mapM {A B : Type} (f : A -> M B) (l : list A) : M (list B) :=
  match l with
  | [] => ret []
  | a :: l' => let* b := f a in let* bs := mapM f l' in ret (b :: bs)
  end.

Fixpoint forM_ {A : Type} (l : list A) (body : A -> M unit) : M unit :=
  match l with
  | [] => ret tt
  | a :: l' => body a;; forM_ l' body
  end.

(** ** Array helpers *)

(** [arr.findIndex(p)]: the first index whose element satisfies [p], or -1. *)
Fixpoint findIndex_from {A : Type} (p : A -> bool) (arr : list A) (i : Z) : Z :=
  match arr with
  | [] => (-1)%Z
  | x :: arr' => if p x then i else findIndex_from p arr' (i + 1)%Z
  end.

Definition findIndex {A : Type} (p : A -> bool) (arr : list A) : Z :=
  findIndex_from p arr 0%Z.

(** [arr.slice(-k)]: the last [k] elements, all of them when there are
    fewer. *)
Definition slice_last {A : Type} (k : nat) (arr : list A) : list A :=
  drop (length arr - k) arr.
Arguments slice_last : simpl never.

(** A string is falsy when it is missing or empty. *)
Definition falsy (s : option string) : bool :=
  match s with
  | None => true
  | Some s => String.eqb s ""
  end.

(** ** Requests and responses of the rule-management handlers *)

Module Response.
(** A [Response.json(body, {status})] with an [ApiResponse<T>] body. *)
Record t (T : Type) : Type := mk {
  status : nat;
  success : bool;
  data : option T;
  error : option string;
  message : option string
}.
Arguments mk {T} status success data error message.
Arguments status {T} _.
Arguments success {T} _.
Arguments data {T} _.
Arguments error {T} _.
Arguments message {T} _.

Definition failure {T : Type} (status : nat) (error : string) : t T :=
  mk status false None (Some error) None.

Definition ok {T : Type} (status : nat) (data : T) (message : string) : t T :=
  mk status true (Some data) None (Some message).
End Response.

(** The JSON body of a creation request, before any validation: every key
    may be missing, and [conditions] may hold something that is no array. *)
Module CreateRuleForm.
Inductive conditions_field : Type :=
  | Falsy                       (* missing, null, 0, false or the empty string *)
  | NotAnArray                  (* any other value that is no array *)
  | ConditionArray (conditions : list ConditionForm.t).

Definition conditions_falsy (c : conditions_field) : bool :=
  match c with Falsy => true | _ => false end.

(** [Array.isArray(c)] *)
Definition isArray (c : conditions_field) : bool :=
  match c with ConditionArray _ => true | _ => false end.

Definition elements (c : conditions_field) : list ConditionForm.t :=
  match c with ConditionArray conditions => conditions | _ => [] end.

Record t : Type := mk {
  name : option string;
  description : option string;
  campaignId : option string;
  conditions : conditions_field;
  actionType : option ActionType;
  actionParameters : option (gmap string Scalar)
}.
End CreateRuleForm.

(** The JSON body of an update request: [{ ruleId, ...updates }]. *)
Module UpdateRuleBody.
Record t : Type := mk {
  ruleId : option string;
  updates : PartialRule.t
}.
End UpdateRuleBody.

(** The keys of [AVAILABLE_METRICS]: the raw and the derived metric fields
    a condition may name. *)
Definition AVAILABLE_METRICS : list string :=
  ["spend"; "ctr"; "cpc"; "cpm"; "roas"; "clicks"; "impressions"; "reach";
   "frequency"; "costPerAction"; "conversionRate"].

Definition recognized (field : string) : bool :=
  existsb (String.eqb field) AVAILABLE_METRICS.

(** ** [MetaAdsService.calculateMetrics] and [AutomationEngine] *)

(** What the engine takes from its environment. *)
Class Environment : Type := {
  (** [parseFloat] and [parseInt] of the language. *)
  parseFloat : string -> number;
  parseInt : string -> number;
  (** The value of the [n]-th [uuidv4()] call and of the [n]-th
      [new Date().toISOString()] read of a run. *)
  uuidv4 : nat -> string;
  toISOString : nat -> string;
  (** The action executor as the engine sees it: the outcome of its
      [n]-th call, a promise that resolves to a result or rejects. *)
  executor :
    nat -> string -> string -> option (gmap string Scalar) ->
    Settled ActionResult.t;
  (** The metrics source: [getCampaign] rejects on failure whereas
      [getCampaignInsights] catches its failures and yields [null]. *)
  getCampaign : string -> Settled Campaign.t;
  getCampaignInsights : string -> option CampaignInsights.t
}.

Section Engine.

Context `{env : Environment}.

Definition new_uuid : M string := fun st =>
  (uuidv4 (uuid_draws st),
   mkEngine (rules st) (logs st) (warnings st) (executed st)
            (S (uuid_draws st)) (date_reads st)).

Definition new_Date : M string := fun st =>
  (toISOString (date_reads st),
   mkEngine (rules st) (logs st) (warnings st) (executed st)
            (uuid_draws st) (S (date_reads st))).

Definition call_executor
    (campaignId action : string) (parameters : option (gmap string Scalar))
    : M (Settled ActionResult.t) :=
  let* st := get in
  record_call (ActionCall.mk campaignId action parameters);;
  ret (executor (length (executed st)) campaignId action parameters).

(** *** Derived metrics *)

Definition is_checkout (action : Action.t) : bool :=
  String.eqb (Action.action_type action) "omni_initiated_checkout"
  || String.eqb (Action.action_type action) "initiate_checkout"
  || String.eqb (Action.action_type action)
                "offsite_conversion.fb_pixel_initiate_checkout".

Definition calculateMetrics (insights : option CampaignInsights.t)
    : CalculatedMetrics.t :=
  match insights with
  | None => CalculatedMetrics.mk None None None
  | Some insights =>
      let spend := parseFloat (CampaignInsights.spend insights) in
      let clicks := parseInt (CampaignInsights.clicks insights) in
      let purchaseActions :=
        match CampaignInsights.actions insights with
        | Some actions => List.find is_checkout actions
        | None => None
        end in
      let conversions :=
        match purchaseActions with
        | Some purchase => parseInt (Action.value purchase)
        | None => JsNumber.zero
        end in
      let revenue := JsNumber.mul conversions (JsNumber.of_Z 50) in
      CalculatedMetrics.mk
        (if JsNumber.gt spend JsNumber.zero
         then Some (JsNumber.div revenue spend) else None)
        (if JsNumber.gt conversions JsNumber.zero
         then Some (JsNumber.div spend conversions) else None)
        (if JsNumber.gt clicks JsNumber.zero
         then Some (JsNumber.mul (JsNumber.div conversions clicks)
                                 (JsNumber.of_Z 100))
         else None)
  end.

(** *** Rule store *)

Definition addCondition (condition : ConditionForm.t) : M RuleCondition.t :=
  let* id := new_uuid in
  ret (RuleCondition.mk id
         (ConditionForm.field condition)
         (ConditionForm.operator condition)
         (ConditionForm.value condition)
         (ConditionForm.logicalOperator condition)).

Definition addRule (rule : RuleForm.t) : M AutomationRule.t :=
  let* id := new_uuid in
  let* createdAt := new_Date in
  let* updatedAt := new_Date in
  let* conditions := mapM addCondition (RuleForm.conditions rule) in
  let newRule :=
    AutomationRule.mk id (RuleForm.name rule) (RuleForm.description rule)
      (RuleForm.campaignId rule) conditions (RuleForm.action rule)
      (RuleForm.isActive rule) createdAt updatedAt
      (RuleForm.lastTriggered rule) in
  let* st := get in
  set_rules (rules st ++ [newRule]);;
  ret newRule.

Definition getRules : M (list AutomationRule.t) :=
  let* st := get in ret (rules st).

Definition selected (campaignId : string) (rule : AutomationRule.t) : bool :=
  String.eqb (AutomationRule.campaignId rule) campaignId
  && AutomationRule.isActive rule.

Definition getRulesForCampaign (campaignId : string)
    : M (list AutomationRule.t) :=
  let* st := get in ret (List.filter (selected campaignId) (rules st)).

(** [{...rule, ...updates, updatedAt: stamp}] *)
Definition merge (rule : AutomationRule.t) (updates : PartialRule.t)
    (stamp : string) : AutomationRule.t :=
  AutomationRule.mk
    (default (AutomationRule.id rule) (PartialRule.id updates))
    (default (AutomationRule.name rule) (PartialRule.name updates))
    (match PartialRule.description updates with
     | Some d => Some d
     | None => AutomationRule.description rule
     end)
    (default (AutomationRule.campaignId rule) (PartialRule.campaignId updates))
    (default (AutomationRule.conditions rule) (PartialRule.conditions updates))
    (default (AutomationRule.action rule) (PartialRule.action updates))
    (default (AutomationRule.isActive rule) (PartialRule.isActive updates))
    (default (AutomationRule.createdAt rule) (PartialRule.createdAt updates))
    stamp
    (match PartialRule.lastTriggered updates with
     | Some d => Some d
     | None => AutomationRule.lastTriggered rule
     end).

Definition has_id (ruleId : string) (rule : AutomationRule.t) : bool :=
  String.eqb (AutomationRule.id rule) ruleId.

Definition updateRule (ruleId : string) (updates : PartialRule.t)
    : M (option AutomationRule.t) :=
  let* st := get in
  let ruleIndex := findIndex (has_id ruleId) (rules st) in
  if (ruleIndex =? -1)%Z then ret None
  else
    match rules st !! Z.to_nat ruleIndex with
    | None => ret None
    | Some rule =>
        let* stamp := new_Date in
        let updated := merge rule updates stamp in
        set_rules (<[Z.to_nat ruleIndex := updated]> (rules st));;
        ret (Some updated)
    end.

Definition deleteRule (ruleId : string) : M bool :=
  let* st := get in
  let ruleIndex := findIndex (has_id ruleId) (rules st) in
  if (ruleIndex =? -1)%Z then ret false
  else set_rules (delete (Z.to_nat ruleIndex) (rules st));; ret true.

(** *** Conditions and rules *)

(** A raw field: parsed from the insights, 0 when there are none. *)
Definition raw (parse : string -> number)
    (get_field : CampaignInsights.t -> string)
    (campaignData : CampaignWithInsights.t) : number :=
  match CampaignWithInsights.insights campaignData with
  | Some insights => parse (get_field insights)
  | None => JsNumber.zero
  end.

(** The [switch (field)] of [evaluateCondition]: [None] is its [default]
    branch, [Some actualValue] one of its cases, where [actualValue] may
    be [null]. *)
Definition switch_field (field : string)
    (campaignData : CampaignWithInsights.t) : option (option number) :=
  let metrics := CampaignWithInsights.calculatedMetrics campaignData in
  if String.eqb field "spend" then
    Some (Some (raw parseFloat CampaignInsights.spend campaignData))
  else if String.eqb field "ctr" then
    Some (Some (raw parseFloat CampaignInsights.ctr campaignData))
  else if String.eqb field "cpc" then
    Some (Some (raw parseFloat CampaignInsights.cpc campaignData))
  else if String.eqb field "cpm" then
    Some (Some (raw parseFloat CampaignInsights.cpm campaignData))
  else if String.eqb field "clicks" then
    Some (Some (raw parseInt CampaignInsights.clicks campaignData))
  else if String.eqb field "impressions" then
    Some (Some (raw parseInt CampaignInsights.impressions campaignData))
  else if String.eqb field "reach" then
    Some (Some (raw parseInt CampaignInsights.reach campaignData))
  else if String.eqb field "frequency" then
    Some (Some (raw parseFloat CampaignInsights.frequency campaignData))
  else if String.eqb field "roas" then
    Some (CalculatedMetrics.roas metrics)
  else if String.eqb field "costPerAction" then
    Some (CalculatedMetrics.costPerAction metrics)
  else if String.eqb field "conversionRate" then
    Some (CalculatedMetrics.conversionRate metrics)
  else None.

(** The result of a condition and the lines it sends to [console.warn]. *)
Definition evaluateCondition (condition : RuleCondition.t)
    (campaignData : CampaignWithInsights.t) : bool * list string :=
  let field := RuleCondition.field condition in
  match switch_field field campaignData with
  | None => (false, ["Unknown field: " +:+ field])
  | Some None => (false, ["Could not get value for field: " +:+ field])
  | Some (Some actualValue) =>
      (compareValues actualValue (RuleCondition.operator condition)
                     (RuleCondition.value condition), [])
  end.

Definition is_OR (condition : RuleCondition.t) : bool :=
  match RuleCondition.logicalOperator condition with
  | Some op => String.eqb op "OR"
  | None => false
  end.

(** One round of the [for] loop of [evaluateRule], at index [i]. *)
Definition evaluateRule_step (conditions : list RuleCondition.t)
    (campaignData : CampaignWithInsights.t)
    (acc : bool * list string) (i : nat) : bool * list string :=
  match conditions !! i with
  | None => acc
  | Some condition =>
      let (conditionResult, lines) :=
        evaluateCondition condition campaignData in
      (if is_OR condition then acc.1 || conditionResult
       else acc.1 && conditionResult,
       acc.2 ++ lines)
  end.

Definition evaluateRule (rule : AutomationRule.t)
    (campaignData : CampaignWithInsights.t) : bool * list string :=
  let conditions := AutomationRule.conditions rule in
  match conditions with
  | [] => (false, [])
  | [only] => evaluateCondition only campaignData
  | first :: _ =>
      foldl (evaluateRule_step conditions campaignData)
            (evaluateCondition first campaignData)
            (seq 1 (length conditions - 1))
  end.

(** *** Logging and execution *)

Definition orElse (s : option string) (fallback : string) : string :=
  if falsy s then fallback else default fallback s.

(** The object literal [log] of [logExecution]. *)
Definition logRecord (id timestamp : string) (rule : AutomationRule.t)
    (campaignData : CampaignWithInsights.t)
    (triggered : bool) (reason : string) : AutomationLog.t :=
  let insights := CampaignWithInsights.insights campaignData in
  let campaign := CampaignWithInsights.campaign campaignData in
  let metadata : gmap string Scalar :=
    <["campaignName" := SString (Campaign.name campaign)]>
    (<["ruleName" := SString (AutomationRule.name rule)]>
    (<["spend" := SString (orElse (CampaignInsights.spend <$> insights) "0")]>
    (<["ctr" := SString (orElse (CampaignInsights.ctr <$> insights) "0")]>
     ∅))) in
  AutomationLog.mk id (AutomationRule.id rule) (Campaign.id campaign)
    (RuleAction.type (AutomationRule.action rule))
    triggered reason timestamp (Some metadata).

(** [this.logs.push(log)] and the cut to the last 1000 entries. *)
Definition pushLog (log : AutomationLog.t) : M unit :=
  let* st := get in
  let pushed := logs st ++ [log] in
  if (1000 <? length pushed)%nat then set_logs (slice_last 1000 pushed)
  else set_logs pushed.

Definition logExecution (rule : AutomationRule.t)
    (campaignData : CampaignWithInsights.t)
    (triggered : bool) (reason : string) : M unit :=
  let* id := new_uuid in
  let* timestamp := new_Date in
  pushLog (logRecord id timestamp rule campaignData triggered reason).

Definition touch_lastTriggered (ruleId : string) : M unit :=
  let* st := get in
  let ruleIndex := findIndex (has_id ruleId) (rules st) in
  if (ruleIndex =? -1)%Z then ret tt
  else
    match rules st !! Z.to_nat ruleIndex with
    | None => ret tt
    | Some rule =>
        let* stamp := new_Date in
        set_rules (<[Z.to_nat ruleIndex :=
                       AutomationRule.set_lastTriggered stamp rule]>
                     (rules st))
    end.

Definition executeAction (rule : AutomationRule.t)
    (campaignData : CampaignWithInsights.t) : M bool :=
  let type := RuleAction.type (AutomationRule.action rule) in
  let* outcome :=
    call_executor
      (Campaign.id (CampaignWithInsights.campaign campaignData))
      type
      (RuleAction.parameters (AutomationRule.action rule)) in
  match outcome with
  | Resolved result =>
      logExecution rule campaignData true
        ("Action executed successfully: " +:+ type);;
      touch_lastTriggered (AutomationRule.id rule);;
      ret (ActionResult.success result)
  | Rejected error =>
      logExecution rule campaignData false
        ("Action failed: " +:+ messageOr "Unknown error" error);;
      ret false
  end.

(** The body of the [for ... of] loop of [processCampaignRules]. Its
    [try] block raises no exception on typed data ([evaluateRule] is total
    and [executeAction] catches the rejection of the executor), so the
    [catch] clause, which would log "Rule processing error: ...", has no
    counterpart here. The rules of the loop are the objects of the store;
    the loop reads their [id], [name], [conditions] and [action] only, which
    no round of the loop changes, so the selection is passed by value. *)
Definition processRule (campaignData : CampaignWithInsights.t)
    (rule : AutomationRule.t) : M unit :=
  let (shouldExecute, lines) := evaluateRule rule campaignData in
  console_warn lines;;
  if shouldExecute then
    executeAction rule campaignData;; ret tt
  else
    logExecution rule campaignData false "Rule conditions not met".

Definition processCampaignRules (campaignData : CampaignWithInsights.t)
    : M unit :=
  let* selection :=
    getRulesForCampaign
      (Campaign.id (CampaignWithInsights.campaign campaignData)) in
  forM_ selection (processRule campaignData).

(** The body of the loop of [processAllRules]. *)
Definition processCampaign (campaignId : string) : M unit :=
  match getCampaign campaignId with
  | Rejected _ => ret tt
  | Resolved campaign =>
      let insights := getCampaignInsights campaignId in
      let calculatedMetrics := calculateMetrics insights in
      let* lastUpdated := new_Date in
      processCampaignRules
        (CampaignWithInsights.mk campaign insights calculatedMetrics
                                 lastUpdated)
  end.

Definition processAllRules (campaignIds : list string) : M unit :=
  forM_ campaignIds processCampaign.

Definition clearLogs : M unit := set_logs [].

(** *** The rule-management handlers of [rules/route.ts] *)

Definition POST (request : Settled CreateRuleForm.t)
    : M (Response.t AutomationRule.t) :=
  match request with
  | Rejected error =>
      ret (Response.failure 500
             (messageOr "Failed to create automation rule" error))
  | Resolved body =>
      if falsy (CreateRuleForm.name body)
         || falsy (CreateRuleForm.campaignId body)
         || CreateRuleForm.conditions_falsy (CreateRuleForm.conditions body)
         || falsy (CreateRuleForm.actionType body)
      then
        ret (Response.failure 400
               "Missing required fields: name, campaignId, conditions, actionType")
      else
        let conditions := CreateRuleForm.conditions body in
        if negb (CreateRuleForm.isArray conditions)
           || (length (CreateRuleForm.elements conditions) =? 0)%nat
        then
          ret (Response.failure 400 "At least one condition is required")
        else
          let* newRule :=
            addRule
              (RuleForm.mk
                 (default "" (CreateRuleForm.name body))
                 (Some (orElse (CreateRuleForm.description body) ""))
                 (default "" (CreateRuleForm.campaignId body))
                 (CreateRuleForm.elements conditions)
                 (RuleAction.mk
                    (default "" (CreateRuleForm.actionType body))
                    (CreateRuleForm.actionParameters body))
                 true None) in
          ret (Response.ok 201 newRule "Automation rule created successfully")
  end.

Definition PUT (request : Settled UpdateRuleBody.t)
    : M (Response.t AutomationRule.t) :=
  match request with
  | Rejected error =>
      ret (Response.failure 500
             (messageOr "Failed to update automation rule" error))
  | Resolved body =>
      if falsy (UpdateRuleBody.ruleId body) then
        ret (Response.failure 400 "ruleId is required")
      else
        let* updatedRule :=
          updateRule (default "" (UpdateRuleBody.ruleId body))
                     (UpdateRuleBody.updates body) in
        match updatedRule with
        | None => ret (Response.failure 404 "Rule not found")
        | Some rule =>
            ret (Response.ok 200 rule "Automation rule updated successfully")
        end
  end.

Definition DELETE (ruleId : option string) : M (Response.t unit) :=
  if falsy ruleId then ret (Response.failure 400 "ruleId is required")
  else
    let* deleted := deleteRule (default "" ruleId) in
    if deleted then
      ret (Response.mk 200 true None None
             (Some "Automation rule deleted successfully"))
    else ret (Response.failure 404 "Rule not found").

End Engine.

(** ** Reference formulations used by the statements below *)

Section Reference.

Context `{env : Environment}.

(** One step of a left-to-right fold of condition results: the running
    result is combined with the next condition under the operator that
    this next condition carries, AND when it carries none. *)
Definition combine (campaignData : CampaignWithInsights.t)
    (result : bool) (next : RuleCondition.t) : bool :=
  if is_OR next
  then result || (evaluateCondition next campaignData).1
  else result && (evaluateCondition next campaignData).1.

(** The same step, taking the warnings along. *)
Definition combine_warn (campaignData : CampaignWithInsights.t)
    (acc : bool * list string) (next : RuleCondition.t)
    : bool * list string :=
  (combine campaignData acc.1 next,
   acc.2 ++ (evaluateCondition next campaignData).2).

End Reference.

(** ** Sequences of log writes *)

Section LogRuns.

Context `{env : Environment}.

(** The arguments of one call of [logExecution]. *)
Definition LogRequest : Type :=
  AutomationRule.t * CampaignWithInsights.t * bool * string.

(** The calls of [logExecution] for the requests, one after the other. *)
Definition logAll (requests : list LogRequest) : M unit :=
  forM_ requests
    (fun '(rule, campaignData, triggered, reason) =>
       logExecution rule campaignData triggered reason).

(** The entry that the [k]-th request of such a run creates, when the run
    starts after [u] draws of [uuidv4()] and [d] reads of the clock. *)
Definition recordOf (u d k : nat) (request : LogRequest) : AutomationLog.t :=
  let '(rule, campaignData, triggered, reason) := request in
  logRecord (uuidv4 (u + k)) (toISOString (d + k))
            rule campaignData triggered reason.

(** The three forms the reason of a log entry takes in a pass. *)
Definition reason_form (rule : AutomationRule.t) (reason : string) : Prop :=
  reason = "Rule conditions not met"
  \/ reason = "Action executed successfully: "
              +:+ RuleAction.type (AutomationRule.action rule)
  \/ exists error, reason = "Action failed: " +:+ messageOr "Unknown error" error.

(** A rule that has at least one condition. *)
Definition has_conditions (rule : AutomationRule.t) : Prop :=
  AutomationRule.conditions rule <> [].

End LogRuns.

(** ** A concrete environment, to run the engine on examples *)

Module Sample.

Definition digit (c : ascii) : option Z :=
  let n := Z.of_N (Ascii.N_of_ascii c) in
  if ((48 <=? n) && (n <=? 57))%Z then Some (n - 48)%Z else None.

(** Reads [digits], [digits.digits] or [.digits] from the start of the
    string and stops at the first other character: the digits read as an
    integer and how many of them follow the point; [None] when no digit
    was read. *)
Fixpoint read (s : string) (value : Z) (frac : option Z) (seen : bool)
    : option (Z * Z) :=
  match s with
  | EmptyString => if seen then Some (value, default 0%Z frac) else None
  | String c s' =>
      match digit c, frac with
      | Some d, _ => read s' (10 * value + d)%Z (Z.succ <$> frac) true
      | None, None =>
          if Ascii.eqb c "."%char then read s' value (Some 0%Z) seen
          else if seen then Some (value, 0%Z) else None
      | None, Some k => if seen then Some (value, k) else None
      end
  end.

(** Agrees with [parseFloat] on unsigned decimal numerals of at most 15
    significant digits (no sign, exponent or leading blank). *)
Definition parseDecimal (s : string) : number :=
  match read s 0%Z None false with
  | Some (value, k) => JsNumber.literal value k
  | None => JsNumber.NaN
  end.

Fixpoint read_int (s : string) (value : Z) (seen : bool) : option Z :=
  match s with
  | EmptyString => if seen then Some value else None
  | String c s' =>
      match digit c with
      | Some d => read_int s' (10 * value + d)%Z true
      | None => if seen then Some value else None
      end
  end.

(** Agrees with [parseInt] on numerals that start with at most 15
    decimal digits. *)
Definition parseInteger (s : string) : number :=
  match read_int s 0%Z false with
  | Some value => JsNumber.of_Z value
  | None => JsNumber.NaN
  end.


(** The executor of the repository. *)
Definition simulated
    (n : nat) (campaignId action : string)
    (parameters : option (gmap string Scalar)) : Settled ActionResult.t :=
  simulatedExecuteAction campaignId action parameters.

Definition campaign : Campaign.t :=
  Campaign.mk "120225449479650554" "Spring sale" "ACTIVE"
              "OUTCOME_SALES" "2024-01-01" "2024-01-02".

Definition environment
    (executor : nat -> string -> string -> option (gmap string Scalar) ->
                Settled ActionResult.t) : Environment :=
  {| parseFloat := parseDecimal;
     parseInt := parseInteger;
     uuidv4 := fun n => "uuid-" +:+ pretty n;
     toISOString := fun n => "tick-" +:+ pretty n;
     executor := executor;
     getCampaign := fun _ => Resolved campaign;
     getCampaignInsights := fun _ => None |}.

(** Campaign data without insights: every raw field resolves to 0. *)
Definition noInsights : CampaignWithInsights.t :=
  CampaignWithInsights.mk campaign None
    (CalculatedMetrics.mk None None None) "2024-01-03".

Definition condition (id field operator : string) (value : number)
    (logicalOperator : option string) : RuleCondition.t :=
  RuleCondition.mk id field operator value logicalOperator.

Definition rule (id : string) (conditions : list RuleCondition.t)
    : AutomationRule.t :=
  AutomationRule.mk id "Cost control" None "120225449479650554"
    conditions (RuleAction.mk "LOG_EVENT" None) true
    "2024-01-01" "2024-01-01" None.

Definition store (rs : list AutomationRule.t) : Engine :=
  mkEngine rs [] [] [] 0 0.

Definition simulatedEnv : Environment := environment simulated.




(** Without insights [spend] resolves to 0: [spendAtLeast0] is true and
    [spendAbove0] is false. *)
Definition spendAtLeast0 (logicalOperator : option string) : RuleCondition.t :=
  condition "c-1" "spend" ">=" JsNumber.zero logicalOperator.
Definition spendAbove0 (logicalOperator : option string) : RuleCondition.t :=
  condition "c-2" "spend" ">" JsNumber.zero logicalOperator.
Definition bogus : RuleCondition.t :=
  condition "c-3" "bogus" ">" JsNumber.zero None.

(** [A OR-to-next, B]: the operator sits on the first condition. *)
Definition orOnFirst : AutomationRule.t :=
  rule "r-1" [spendAtLeast0 (Some "OR"); spendAbove0 None].

(** [A, B with OR]: the operator sits on the second condition. *)
Definition orOnSecond : AutomationRule.t :=
  rule "r-2" [spendAtLeast0 None; spendAbove0 (Some "OR")].

Definition alwaysTrue : AutomationRule.t :=
  rule "r-3" [spendAtLeast0 None].

Definition unknownField : AutomationRule.t :=
  rule "r-4" [bogus].

Definition otherCampaign : AutomationRule.t :=
  AutomationRule.mk "r-5" "Elsewhere" None "999" [spendAtLeast0 None]
    (RuleAction.mk "PAUSE_CAMPAIGN" None) true "2024-01-01" "2024-01-01" None.

Definition zeroSpend : CampaignInsights.t :=
  CampaignInsights.mk "0" None "12" "340" "3.5" "0" "0" "300" "1.1"
                      "2024-01-01" "2024-01-31".

Definition roasBelow (threshold : number) : RuleCondition.t :=
  condition "c-4" "roas" "<" threshold None.


(** An update that only pauses the rule. *)
Definition pausing : PartialRule.t :=
  PartialRule.mk None None None None None None (Some false) None None None.

(** An update that replaces the conditions by the empty array. *)
Definition emptying : PartialRule.t :=
  PartialRule.mk None None None None (Some []) None None None None None.

Definition creation (conditions : CreateRuleForm.conditions_field)
    : CreateRuleForm.t :=
  CreateRuleForm.mk (Some "High spend") (Some "") (Some "120225449479650554")
    conditions (Some "PAUSE_CAMPAIGN") None.

Definition oneCondition : CreateRuleForm.conditions_field :=
  CreateRuleForm.ConditionArray
    [ConditionForm.mk "spend" ">" (JsNumber.of_Z 100) None].

(** The store after one successful creation in the simulated environment:
    the rule has the id "uuid-0". *)
Definition created : Engine :=
  (POST (env := simulatedEnv) (Resolved (creation oneCondition)) initial).2.

(** 1001 requests to log, told apart by their reasons. *)
Definition requests : list LogRequest :=
  (fun k => (alwaysTrue, noInsights, false, "run " +:+ pretty k))
    <$> seq 0 1001.

End Sample.

(** * Further functions *)

(** ** Reading the logs and the statistics *)

(** [new Date(timestamp).getTime()] for the timestamps of the log entries,
    which [toISOString] produced and so denote a time, in milliseconds; and
    the value of the [k]-th [Date.now()] of a call of [getStats]. *)
Class Calendar : Type := {
  getTime : string -> Z;
  Date_now : nat -> Z
}.

Module Stats.
Record t : Type := mk {
  totalRules : nat;
  activeRules : nat;
  totalLogs : nat;
  triggeredActions : nat;
  recentLogs : nat;
  successRate : number
}.
End Stats.

(** [arr.slice(0, limit)] for an integral [limit]: a negative [limit]
    counts from the end. *)
Definition slice_to {A : Type} (limit : Z) (arr : list A) : list A :=
  if (limit <? 0)%Z then take (length arr - Z.to_nat (- limit)) arr
  else take (Z.to_nat limit) arr.

Section Queries.

Context `{cal : Calendar}.

Definition time_of (log : AutomationLog.t) : Z :=
  getTime (AutomationLog.timestamp log).

(** [arr.sort((a, b) => time(b) - time(a))]: the sort is stable, so the
    result is the one arrangement by decreasing time that keeps entries of
    equal time in their order; it is computed by inserting each entry, from
    the last to the first, before the entries that are not newer. *)
Fixpoint insert_newest_first (log : AutomationLog.t)
    (sorted : list AutomationLog.t) : list AutomationLog.t :=
  match sorted with
  | [] => [log]
  | other :: rest =>
      if (time_of log <? time_of other)%Z
      then other :: insert_newest_first log rest
      else log :: other :: rest
  end.

Definition sort_newest_first (arr : list AutomationLog.t)
    : list AutomationLog.t :=
  foldr insert_newest_first [] arr.

(** [getLogs] sorts [this.logs] itself: the store is left sorted. *)
Definition getLogs (limit : Z) : M (list AutomationLog.t) :=
  let* st := get in
  let sorted := sort_newest_first (logs st) in
  set_logs sorted;;
  ret (slice_to limit sorted).

Definition of_campaign (campaignId : string) (log : AutomationLog.t) : bool :=
  String.eqb (AutomationLog.campaignId log) campaignId.

(** [getLogsForCampaign] sorts the array that [filter] returns. *)
Definition getLogsForCampaign (campaignId : string) (limit : Z)
    : M (list AutomationLog.t) :=
  let* st := get in
  ret (slice_to limit
         (sort_newest_first (List.filter (of_campaign campaignId) (logs st)))).

(** The callback of the [recentLogs] filter, at the [k]-th entry. *)
Definition is_recent (k : nat) (log : AutomationLog.t) : bool :=
  (Date_now k - 24 * 60 * 60 * 1000 <? time_of log)%Z.

Definition count_recent (arr : list AutomationLog.t) : nat :=
  length (List.filter (fun entry => is_recent entry.1 entry.2)
                      (imap pair arr)).

Definition getStats : M Stats.t :=
  let* st := get in
  let totalRules := length (rules st) in
  let activeRules := length (List.filter AutomationRule.isActive (rules st)) in
  let totalLogs := length (logs st) in
  let triggeredActions :=
    length (List.filter AutomationLog.triggered (logs st)) in
  let recentLogs := count_recent (logs st) in
  ret (Stats.mk totalRules activeRules totalLogs triggeredActions recentLogs
         (if (0 <? totalLogs)%nat
          then JsNumber.mul
                 (JsNumber.div (JsNumber.of_Z (Z.of_nat triggeredActions))
                               (JsNumber.of_Z (Z.of_nat totalLogs)))
                 (JsNumber.of_Z 100)
          else JsNumber.zero)).

End Queries.

(** ** The rule display and the creation form *)

(** [nextCondition?.logicalOperator || 'AND'] *)
Definition operator_or_AND (next : option (option LogicalOperator))
    : LogicalOperator :=
  match next with
  | Some (Some op) => if String.eqb op "" then "AND" else op
  | _ => "AND"
  end.

(** What [formatConditions] renders for one condition: the condition in
    its box and, unless it is the last one, the operator after it. *)
Module Rendered.
Record t : Type := mk {
  key : string;
  field : string;
  operator : ComparisonOperator;
  value : number;
  separator : option LogicalOperator
}.
End Rendered.

Definition formatConditions (conditions : list RuleCondition.t)
    : list Rendered.t :=
  imap (fun index condition =>
          let isLast := (index =? length conditions - 1)%nat in
          let nextCondition := conditions !! (index + 1) in
          let logicalOperator :=
            operator_or_AND (RuleCondition.logicalOperator <$> nextCondition) in
          Rendered.mk (RuleCondition.id condition)
            (RuleCondition.field condition)
            (RuleCondition.operator condition)
            (RuleCondition.value condition)
            (if isLast then None else Some logicalOperator))
       conditions.

(** The state [conditions] of [CreateRuleModal] and its three updates. *)
Module FormCondition.
Record t : Type := mk {
  tempId : string;
  field : string;
  operator : ComparisonOperator;
  value : number;
  logicalOperator : option LogicalOperator
}.

(** [{ ...c, ...updates }] for an update of the operator only, the one the
    select between two conditions sends. *)
Definition set_logicalOperator (op : LogicalOperator) (c : t) : t :=
  mk (tempId c) (field c) (operator c) (value c) (Some op).

(** The condition the payload of [handleSubmit] carries. *)
Definition payload (c : t) : ConditionForm.t :=
  ConditionForm.mk (field c) (operator c) (value c) (logicalOperator c).
End FormCondition.

(** The initial state; [tempId] is the value [uuidv4()] returned. *)
Definition initialConditions (tempId : string) : list FormCondition.t :=
  [FormCondition.mk tempId "spend" ">" JsNumber.zero None].

Definition addFormCondition (tempId : string)
    (conditions : list FormCondition.t) : list FormCondition.t :=
  conditions ++ [FormCondition.mk tempId "spend" ">" JsNumber.zero (Some "AND")].

Definition removeCondition (tempId : string)
    (conditions : list FormCondition.t) : list FormCondition.t :=
  if (1 <? length conditions)%nat
  then List.filter
         (fun c => negb (String.eqb (FormCondition.tempId c) tempId))
         conditions
  else conditions.

(** The [onChange] of the select shown after the condition at [index]:
    it updates the operator of the condition at [index + 1]. *)
Definition selectOperator (index : nat) (op : LogicalOperator)
    (conditions : list FormCondition.t) : list FormCondition.t :=
  match conditions !! (index + 1) with
  | Some nextCondition =>
      (fun c =>
         if String.eqb (FormCondition.tempId c)
                       (FormCondition.tempId nextCondition)
         then FormCondition.set_logicalOperator op c else c)
      <$> conditions
  | None => conditions
  end.

(** The conditions of the rule that [addRule] stores for a payload. *)
Definition strip (condition : RuleCondition.t) : ConditionForm.t :=
  ConditionForm.mk (RuleCondition.field condition)
    (RuleCondition.operator condition) (RuleCondition.value condition)
    (RuleCondition.logicalOperator condition).

(** ** The scheduler *)

Module Scheduler.

(** The fields of [AutomationScheduler] together with the timers of the
    host: the handles that [setInterval] returned and [clearInterval] has
    not cleared, each with its period in milliseconds, and the number of
    immediate runs of [executeAutomation] that [start] has launched. *)
Record t : Type := mk {
  intervalId : option nat;
  isRunning : bool;
  intervalMinutes : number;
  timers : list (nat * number);
  next_handle : nat;
  executions : nat
}.

Definition fresh : t := mk None false (JsNumber.of_Z 15) [] 1 0.

Definition start (minutes : number) (s : t) : t :=
  if isRunning s then s
  else
    mk (Some (next_handle s)) true minutes
       (timers s ++
          [(next_handle s,
            JsNumber.mul (JsNumber.mul minutes (JsNumber.of_Z 60))
                         (JsNumber.of_Z 1000))])
       (S (next_handle s))
       (S (executions s)).

(** [if (this.intervalId)]: a handle is a number, truthy unless it is 0. *)
Definition truthy (handle : option nat) : bool :=
  match handle with
  | Some h => negb (h =? 0)%nat
  | None => false
  end.

Definition stop (s : t) : t :=
  if truthy (intervalId s) then
    mk None false (intervalMinutes s)
       (List.filter
          (fun timer => negb (timer.1 =? default 0 (intervalId s))%nat)
          (timers s))
       (next_handle s) (executions s)
  else
    mk (intervalId s) false (intervalMinutes s) (timers s)
       (next_handle s) (executions s).

(** [getStatus]: whether a next run is announced. *)
Definition announces_next_run (s : t) : bool :=
  isRunning s && truthy (intervalId s).

(** A call of the public interface. *)
Inductive call : Type :=
  | Start (minutes : number)
  | Stop.

Definition run (c : call) (s : t) : t :=
  match c with
  | Start minutes => start minutes s
  | Stop => stop s
  end.

End Scheduler.

(** ** Reference formulations for the statements on these functions *)

(** A rule without its [lastTriggered]. *)
Definition forget_lastTriggered (rule : AutomationRule.t) : AutomationRule.t :=
  AutomationRule.mk (AutomationRule.id rule) (AutomationRule.name rule)
    (AutomationRule.description rule) (AutomationRule.campaignId rule)
    (AutomationRule.conditions rule) (AutomationRule.action rule)
    (AutomationRule.isActive rule) (AutomationRule.createdAt rule)
    (AutomationRule.updatedAt rule) None.

(** The call of the executor that a rule makes for a campaign. *)
Definition call_of (campaignData : CampaignWithInsights.t)
    (rule : AutomationRule.t) : ActionCall.t :=
  ActionCall.mk (Campaign.id (CampaignWithInsights.campaign campaignData))
    (RuleAction.type (AutomationRule.action rule))
    (RuleAction.parameters (AutomationRule.action rule)).

(** The eight raw metric fields. *)
Definition raw_fields : list string :=
  ["spend"; "ctr"; "cpc"; "cpm"; "clicks"; "impressions"; "reach";
   "frequency"].

(** [a] may stand before [b] in a list sorted newest first. *)
Definition not_older `{cal : Calendar} (a b : AutomationLog.t) : Prop :=
  (time_of b <= time_of a)%Z.

(** The entries of a list with a given time, in their order. *)
Definition at_time `{cal : Calendar} (t : Z) (arr : list AutomationLog.t)
    : list AutomationLog.t :=
  List.filter (fun log => (time_of log =? t)%Z) arr.

(** The scheduler after a sequence of calls on a fresh instance. *)
Definition scheduler_after (calls : list Scheduler.call) : Scheduler.t :=
  foldl (fun s c => Scheduler.run c s) Scheduler.fresh calls.

(** The fields of the scheduler agree with the timers of the host. *)
Definition scheduler_consistent (s : Scheduler.t) : Prop :=
  0 < Scheduler.next_handle s
  /\ (Scheduler.isRunning s = true ->
      exists handle period,
        Scheduler.intervalId s = Some handle
        /\ handle <> 0
        /\ handle < Scheduler.next_handle s
        /\ Scheduler.timers s = [(handle, period)])
  /\ (Scheduler.isRunning s = false ->
      Scheduler.intervalId s = None /\ Scheduler.timers s = []).


(** ** Sample data for the further functions *)

Module Examples.

Import Sample.

(** The time of a timestamp of the sample environment, ["tick-<n>"]: [n]
    milliseconds. *)
Definition tick (timestamp : string) : Z :=
  default 0%Z (read_int (substring 5 (String.length timestamp) timestamp)
                        0%Z false).

(** A calendar in which [Date.now()] is five milliseconds after the first
    day: the entries of the last 24 hours are those after tick 5. *)
Definition calendar : Calendar :=
  {| getTime := tick;
     Date_now := fun _ => (24 * 60 * 60 * 1000 + 5)%Z |}.

Definition entry (id campaignId : string) (triggered : bool) (time : nat)
    : AutomationLog.t :=
  AutomationLog.mk id "r-3" campaignId "LOG_EVENT" triggered
    "Rule conditions not met" ("tick-" +:+ pretty time) None.

(** Four entries out of order, two of them of the same time. *)
Definition history : Engine :=
  mkEngine [alwaysTrue; otherCampaign]
    [entry "l-1" "120225449479650554" false 3;
     entry "l-2" "999" true 7;
     entry "l-3" "120225449479650554" true 7;
     entry "l-4" "120225449479650554" false 1]
    [] [] 0 0.

(** A store whose log holds 1000 entries. *)
Definition full : Engine :=
  (logAll (env := simulatedEnv) (take 1000 requests) (store [])).2.

(** The full store read once with [getLogs] and then appended to: the
    last of the 1001 requests is logged after the read. *)
Definition readThenLogged : Engine :=
  (logAll (env := simulatedEnv) (drop 1000 requests)
          (getLogs (cal := calendar) 50 full).2).2.

(** The reasons ["run k"] of the requests, for the numbers [ks]. *)
Definition runs (ks : list nat) : list string :=
  (fun k => "run " +:+ pretty k) <$> ks.

(** An environment in which the campaign "404" cannot be fetched. *)
Definition unreachableEnv : Environment :=
  {| parseFloat := parseDecimal;
     parseInt := parseInteger;
     uuidv4 := fun n => "uuid-" +:+ pretty n;
     toISOString := fun n => "tick-" +:+ pretty n;
     executor := simulated;
     getCampaign := fun campaignId =>
       if String.eqb campaignId "404"
       then Rejected (ErrorObject "Request failed with status code 404")
       else Resolved campaign;
     getCampaignInsights := fun _ => None |}.

Definition linkClick : Action.t := Action.mk "link_click" "40".
Definition checkout : Action.t := Action.mk "initiate_checkout" "4".
Definition omniCheckout : Action.t := Action.mk "omni_initiated_checkout" "9".

(** Insights whose actions hold no checkout. *)
Definition clicksOnly : CampaignInsights.t :=
  CampaignInsights.mk "25.50" (Some [linkClick]) "12" "340" "3.5" "2.1" "75"
                      "300" "1.1" "2024-01-01" "2024-01-31".

Definition costPerActionBelow (threshold : number) : RuleCondition.t :=
  condition "c-5" "costPerAction" "<" threshold None.

(** Three conditions that all fail without insights, the last one under
    [OR]. *)
Definition neverTrue : AutomationRule.t :=
  rule "r-6" [spendAbove0 None; bogus; spendAbove0 (Some "OR")].

Definition form : RuleForm.t :=
  RuleForm.mk "High spend" (Some "") "120225449479650554"
    [ConditionForm.mk "spend" ">" (JsNumber.of_Z 100) None;
     ConditionForm.mk "ctr" "<" (JsNumber.of_Z 1) (Some "OR")]
    (RuleAction.mk "PAUSE_CAMPAIGN" None) true None.

(** A creation request without a name. *)
Definition unnamed : CreateRuleForm.t :=
  CreateRuleForm.mk (Some "") (Some "") (Some "120225449479650554")
    oneCondition (Some "PAUSE_CAMPAIGN") None.

(** The form after one click on "Add condition". *)
Definition twoConditions : list FormCondition.t :=
  addFormCondition "t-2" (initialConditions "t-1").

(** Two starts, the second while running, two stops and a restart. *)
Definition calls : list Scheduler.call :=
  [Scheduler.Start (JsNumber.of_Z 15); Scheduler.Start (JsNumber.of_Z 5);
   Scheduler.Stop; Scheduler.Stop; Scheduler.Start (JsNumber.of_Z 1)].

End Examples.
(** * Properties *)

(** ** Numbers *)

Section NumberFacts.

Import JsNumber.

Lemma literal_epsilon :
  literal 1 3 = S754_finite false 4611686018427388 (-62).
Proof. vm_compute. reflexivity. Qed.

Lemma literal_epsilon_nearest : nearest_to (literal 1 3) 1 1000 = true.
Proof. vm_compute. reflexivity. Qed.

Lemma literal_samples_nearest :
  nearest_to (literal 99995 4) 99995 10000 = true
  /\ nearest_to (literal 999 2) 999 100 = true
  /\ nearest_to (literal 10 0) 10 1 = true.
Proof. vm_compute. repeat split. Qed.

Lemma SFcompare_antisym (x y : number) :
  SFcompare y x = CompOpp <$> SFcompare x y.
Proof.
  destruct x as [sx | sx | | sx mx ex], y as [sy | sy | | sy my ey];
    simpl; try reflexivity;
    try (destruct sx; reflexivity);
    try (destruct sy; reflexivity);
    try (destruct sx, sy; reflexivity).
  destruct sx, sy; simpl; try reflexivity;
    rewrite (Z.compare_antisym ex ey);
    destruct (ex ?= ey)%Z eqn:E; simpl; try reflexivity;
    rewrite (Pos.compare_cont_antisym mx my Eq); simpl;
    try rewrite CompOpp_involutive; reflexivity.
Qed.

Lemma SFcompare_not_nan (x y : number) :
  isNaN x = false -> isNaN y = false -> is_Some (SFcompare x y).
Proof.
  destruct x, y; simpl; intros Hx Hy; try discriminate; eauto.
Qed.

(** For two numbers, [y <= x] is the negation of [x < y]. *)
Lemma ge_negb_lt (x y : number) :
  isNaN x = false -> isNaN y = false -> ge x y = negb (lt x y).
Proof.
  intros Hx Hy. unfold ge, lt, SFleb, SFltb.
  rewrite (SFcompare_antisym x y).
  destruct (SFcompare_not_nan x y Hx Hy) as [c ->].
  destruct c; reflexivity.
Qed.

(** A comparison with [NaN] on either side is false. *)
Lemma lt_nan_l (y : number) : lt NaN y = false.
Proof. reflexivity. Qed.

Lemma ge_nan_l (y : number) : ge NaN y = false.
Proof. unfold ge, SFleb. destruct y; reflexivity. Qed.

Lemma abs_isNaN (x : number) : isNaN (Math_abs x) = isNaN x.
Proof. destruct x; reflexivity. Qed.

Lemma abs_well_formed (x : number) :
  well_formed (Math_abs x) = well_formed x.
Proof. destruct x; reflexivity. Qed.

Lemma digits2_pos_size (m : positive) : digits2_pos m = Pos.size m.
Proof. induction m as [m IH | m IH |]; cbn; rewrite ?IH; reflexivity. Qed.

(** The mantissa of a well-formed double is below 2^53, and at least 2^52
    above the least exponent. *)
Lemma bounded_mantissa (m : positive) (e : Z) :
  bounded prec emax m e = true ->
  (Z.pos m < 2 ^ 53)%Z /\ ((-1074 < e)%Z -> (2 ^ 52 <= Z.pos m)%Z).
Proof.
  unfold bounded, canonical_mantissa, fexp, emin, prec, emax.
  intros Hb. apply andb_true_iff in Hb. destruct Hb as [Hc _].
  apply Z.eqb_eq in Hc. rewrite digits2_pos_size in Hc.
  pose proof (Pos.size_gt m) as Hgt. pose proof (Pos.size_le m) as Hle.
  apply Pos2Z.pos_lt_pos in Hgt. apply Pos2Z.pos_le_pos in Hle.
  rewrite Pos2Z.inj_pow in Hgt, Hle.
  rewrite Pos2Z.inj_xO in Hle.
  set (d := Z.pos (Pos.size m)) in *.
  assert (Hd : (0 < d)%Z) by (subst d; lia).
  split.
  - assert (d <= 53)%Z by lia.
    assert (2 ^ d <= 2 ^ 53)%Z by (apply Z.pow_le_mono_r; lia).
    lia.
  - intros He. assert (d = 53)%Z by lia.
    replace d with 53%Z in Hle by lia.
    change (2 ^ 53)%Z with (2 * 2 ^ 52)%Z in Hle. lia.
Qed.

(** On well-formed doubles, comparing with the double nearest to 0.001 is
    comparing the exact value with 1/1000: no double lies between the
    two. *)
Lemma lt_epsilon_exact (x : number) :
  well_formed x = true -> lt x (literal 1 3) = below_thousandth x.
Proof.
  rewrite literal_epsilon. unfold well_formed, lt, SFltb.
  destruct x as [s | s | | s m e];
    cbn [valid_binary SFcompare below_thousandth];
    intros Hv; try reflexivity.
  - destruct s; reflexivity.
  - destruct s; [reflexivity |].
    destruct (bounded_mantissa m e Hv) as [Hhi Hlo].
    destruct (Z.lt_trichotomy e (-62)) as [He | [He | He]].
    + rewrite (proj2 (Z.compare_lt_iff e (-62)) He).
      symmetry. apply andb_true_iff. split; [apply Z.ltb_lt; lia |].
      apply Z.ltb_lt.
      assert (H63 : (2 ^ 63 <= 2 ^ (- e))%Z) by (apply Z.pow_le_mono_r; lia).
      clear Hv Hlo. set (p := (2 ^ (- e))%Z) in *. clearbody p.
      change (2 ^ 63)%Z with 9223372036854775808%Z in H63.
      change (2 ^ 53)%Z with 9007199254740992%Z in Hhi. lia.
    + subst e. rewrite Z.compare_refl.
      replace (-62 <? 0)%Z with true by reflexivity.
      replace (- -62)%Z with 62%Z by reflexivity.
      rewrite andb_true_l.
      clear Hv Hlo Hhi.
      destruct (PosDef.Pos.compare_cont Eq m 4611686018427388) eqn:Hm;
        symmetry.
      * assert (Heq : m = 4611686018427388%positive)
          by (apply Pos.compare_eq; exact Hm).
        subst m. reflexivity.
      * assert (Hlt : (Z.pos m < 4611686018427388)%Z)
          by (apply Pos2Z.pos_lt_pos; exact Hm).
        assert (Hle : (Z.pos m <= 4611686018427387)%Z) by (clear Hm; lia).
        apply Z.ltb_lt.
        apply (Z.le_lt_trans _ (1000 * 4611686018427387)%Z);
          [apply Z.mul_le_mono_nonneg_l; [discriminate | exact Hle]
          | reflexivity].
      * assert (Hgt : (4611686018427388 < Z.pos m)%Z)
          by (apply Pos2Z.pos_lt_pos, Pos.compare_gt_iff; exact Hm).
        assert (Hle : (4611686018427388 <= Z.pos m)%Z) by (clear Hm; lia).
        apply Z.ltb_ge.
        apply (Z.le_trans _ (1000 * 4611686018427388)%Z);
          [discriminate
          | apply Z.mul_le_mono_nonneg_l; [discriminate | exact Hle]].
    + rewrite (proj2 (Z.compare_gt_iff e (-62)) He).
      symmetry. apply andb_false_iff.
      destruct (Z.ltb_spec e 0) as [Hneg | Hpos]; [right | left; reflexivity].
      apply Z.ltb_ge.
      assert (H61 : (2 ^ (- e) <= 2 ^ 61)%Z) by (apply Z.pow_le_mono_r; lia).
      assert (H52 : (2 ^ 52 <= Z.pos m)%Z) by (apply Hlo; lia).
      clear Hv Hlo. set (p := (2 ^ (- e))%Z) in *. clearbody p.
      change (2 ^ 61)%Z with 2305843009213693952%Z in H61.
      change (2 ^ 52)%Z with 4503599627370496%Z in H52. lia.
Qed.

End NumberFacts.

(** ** The epsilon comparisons *)

(** C5: [=] holds exactly when the absolute difference is below 0.001 and
    [!=] exactly when it is at least 0.001. The difference is the one the
    program computes and 0.001 is the double nearest to 1/1000; as no
    double lies between the two, the comparison is also the exact
    comparison of that difference with 1/1000. 9.9995 against 10.0 is
    equal, 9.99 against 10.0 is not. *)
Theorem compareValues_epsilon :
  (forall a t : number,
      compareValues a "=" t
      = JsNumber.lt (Math_abs (JsNumber.sub a t)) (JsNumber.literal 1 3))
  /\ (forall a t : number,
      compareValues a "!=" t
      = JsNumber.ge (Math_abs (JsNumber.sub a t)) (JsNumber.literal 1 3))
  /\ JsNumber.nearest_to (JsNumber.literal 1 3) 1 1000 = true
  /\ (forall a t : number,
        JsNumber.well_formed (JsNumber.sub a t) = true ->
        compareValues a "=" t
        = JsNumber.below_thousandth (Math_abs (JsNumber.sub a t))
        /\ (JsNumber.isNaN (JsNumber.sub a t) = false ->
            compareValues a "!=" t
            = negb (JsNumber.below_thousandth
                      (Math_abs (JsNumber.sub a t)))))
  /\ compareValues (JsNumber.literal 99995 4) "=" (JsNumber.literal 10 0) = true
  /\ compareValues (JsNumber.literal 999 2) "=" (JsNumber.literal 10 0) = false.
Proof.
  split; [ | split; [ | split; [ | split; [ | split ] ] ] ].
  - intros a t. reflexivity.
  - intros a t. reflexivity.
  - apply literal_epsilon_nearest.
  - intros a t Hwf.
    change (compareValues a "!=" t)
      with (JsNumber.ge (Math_abs (JsNumber.sub a t)) (JsNumber.literal 1 3)).
    change (compareValues a "=" t)
      with (JsNumber.lt (Math_abs (JsNumber.sub a t)) (JsNumber.literal 1 3)).
    rewrite <- lt_epsilon_exact by (rewrite abs_well_formed; exact Hwf).
    split; [reflexivity |].
    intros Hnum. apply ge_negb_lt.
    + rewrite abs_isNaN. exact Hnum.
    + rewrite literal_epsilon. reflexivity.
  - vm_compute. reflexivity.
  - vm_compute. reflexivity.
Qed.

Lemma compareValues_epsilon_witness :
  JsNumber.well_formed
    (JsNumber.sub (JsNumber.literal 99995 4) (JsNumber.literal 10 0)) = true
  /\ compareValues (JsNumber.literal 99995 4) "=" (JsNumber.literal 10 0)
     = JsNumber.below_thousandth
         (Math_abs (JsNumber.sub (JsNumber.literal 99995 4)
                                 (JsNumber.literal 10 0)))
  /\ compareValues (JsNumber.literal 99995 4) "!=" (JsNumber.literal 10 0)
     = negb (JsNumber.below_thousandth
               (Math_abs (JsNumber.sub (JsNumber.literal 99995 4)
                                       (JsNumber.literal 10 0)))).
Proof.
  assert (Hwf : JsNumber.well_formed
                  (JsNumber.sub (JsNumber.literal 99995 4)
                                (JsNumber.literal 10 0)) = true)
    by (vm_compute; reflexivity).
  destruct compareValues_epsilon as (_ & _ & _ & Hexact & _).
  destruct (Hexact (JsNumber.literal 99995 4) (JsNumber.literal 10 0) Hwf)
    as [Heq Hneq].
  split; [exact Hwf | split; [exact Heq |]].
  apply Hneq. vm_compute. reflexivity.
Defined.

(** C10 (as the code has it): for every actual value and threshold whose
    difference is a number, [!=] returns the negation of [=]; when the
    difference is [NaN] (one side is [NaN], or both are the same infinity)
    both comparisons are false. *)
Theorem compareValues_neq_negates_eq (a t : number) :
  (JsNumber.isNaN (JsNumber.sub a t) = false ->
   compareValues a "!=" t = negb (compareValues a "=" t))
  /\ (JsNumber.isNaN (JsNumber.sub a t) = true ->
      compareValues a "!=" t = false /\ compareValues a "=" t = false).
Proof.
  change (compareValues a "!=" t)
    with (JsNumber.ge (Math_abs (JsNumber.sub a t)) (JsNumber.literal 1 3)).
  change (compareValues a "=" t)
    with (JsNumber.lt (Math_abs (JsNumber.sub a t)) (JsNumber.literal 1 3)).
  split; intros Hd.
  - apply ge_negb_lt.
    + rewrite abs_isNaN. exact Hd.
    + rewrite literal_epsilon. reflexivity.
  - destruct (JsNumber.sub a t); try discriminate Hd.
    split; reflexivity.
Qed.

Lemma compareValues_neq_negates_eq_witness :
  compareValues (JsNumber.literal 999 2) "!=" (JsNumber.literal 10 0)
  = negb (compareValues (JsNumber.literal 999 2) "=" (JsNumber.literal 10 0))
  /\ (compareValues JsNumber.NaN "!=" (JsNumber.literal 10 0) = false
      /\ compareValues JsNumber.NaN "=" (JsNumber.literal 10 0) = false).
Proof.
  split.
  - apply (proj1 (compareValues_neq_negates_eq
                    (JsNumber.literal 999 2) (JsNumber.literal 10 0))).
    vm_compute. reflexivity.
  - apply (proj2 (compareValues_neq_negates_eq
                    JsNumber.NaN (JsNumber.literal 10 0))).
    vm_compute. reflexivity.
Defined.

(** C10 as stated fails: with [NaN] as the actual value, which [parseFloat]
    yields for a metric that is no numeral, [!=] and [=] are both false. *)
Lemma compareValues_neq_eq_both_false_at_NaN :
  ~ (forall a t : number,
       compareValues a "!=" t = negb (compareValues a "=" t)).
Proof.
  intros H. specialize (H JsNumber.NaN (JsNumber.literal 10 0)).
  vm_compute in H. discriminate H.
Qed.

(** ** Conditions and rules *)

Section ConditionFacts.

Context `{env : Environment}.

Lemma evaluateRule_step_combine conditions campaignData acc i condition :
  conditions !! i = Some condition ->
  evaluateRule_step conditions campaignData acc i
  = combine_warn campaignData acc condition.
Proof.
  intros Hi. unfold evaluateRule_step, combine_warn, combine.
  rewrite Hi. destruct (evaluateCondition condition campaignData).
  reflexivity.
Qed.

(** The indexed loop over [conditions[i]] visits the conditions after the
    prefix in order. *)
Lemma loop_is_fold campaignData (later : list RuleCondition.t) :
  forall (earlier : list RuleCondition.t) acc,
    foldl (evaluateRule_step (earlier ++ later)
                             campaignData)
          acc (seq (length earlier) (length later))
    = foldl (combine_warn campaignData) acc later.
Proof.
  induction later as [| condition later IH]; intros earlier acc.
  - reflexivity.
  - cbn [length seq foldl].
    rewrite (evaluateRule_step_combine _ _ _ _ condition).
    + specialize (IH (earlier ++ [condition])).
      rewrite <- (assoc_L (++)) in IH. cbn [app] in IH.
      rewrite length_app in IH. cbn [length] in IH.
      replace (length earlier + 1) with (S (length earlier)) in IH by lia.
      apply IH.
    + apply list_lookup_middle. reflexivity.
Qed.

Lemma evaluateRule_fold_warn rule campaignData first rest :
  AutomationRule.conditions rule = first :: rest ->
  evaluateRule rule campaignData
  = foldl (combine_warn campaignData)
          (evaluateCondition first campaignData) rest.
Proof.
  intros Hc. unfold evaluateRule. rewrite Hc.
  destruct rest as [| second rest]; [reflexivity |].
  cbn [length Nat.sub].
  apply (loop_is_fold campaignData (second :: rest) [first]).
Qed.

Lemma fold_warn_fst campaignData rest :
  forall acc,
    (foldl (combine_warn campaignData) acc rest).1
    = foldl (combine campaignData) acc.1 rest.
Proof.
  induction rest as [| next rest IH]; intros acc; [reflexivity |].
  cbn [foldl]. rewrite IH. reflexivity.
Qed.

Lemma evaluateRule_fold rule campaignData first rest :
  AutomationRule.conditions rule = first :: rest ->
  (evaluateRule rule campaignData).1
  = foldl (combine campaignData) (evaluateCondition first campaignData).1 rest.
Proof.
  intros Hc. rewrite (evaluateRule_fold_warn _ _ _ _ Hc). apply fold_warn_fst.
Qed.

(** C1 (as the code has it): the trigger decision of a rule is the
    left-to-right fold of its condition results in which the operator
    carried by condition i+1 (AND when absent) combines the running result
    with the result of condition i+1; for [A, B] where B carries OR, a
    true A makes the rule true whatever B is. *)
Theorem evaluateRule_left_fold rule campaignData first rest :
  AutomationRule.conditions rule = first :: rest ->
  (evaluateRule rule campaignData).1
  = foldl (combine campaignData) (evaluateCondition first campaignData).1 rest
  /\ (forall second,
        rest = [second] ->
        RuleCondition.logicalOperator second = Some "OR" ->
        (evaluateCondition first campaignData).1 = true ->
        (evaluateRule rule campaignData).1 = true).
Proof.
  intros Hc. pose proof (evaluateRule_fold _ campaignData _ _ Hc) as Hfold.
  split; [exact Hfold |].
  intros second -> Hop Hfirst. rewrite Hfold. cbn [foldl].
  unfold combine, is_OR. rewrite Hop, Hfirst. reflexivity.
Qed.

(** *** Fields *)

Lemma unrecognized_default field campaignData :
  recognized field = false -> switch_field field campaignData = None.
Proof.
  unfold recognized, AVAILABLE_METRICS. cbn [existsb].
  intros H.
  repeat (apply orb_false_elim in H; destruct H as [? H]).
  unfold switch_field.
  repeat match goal with
         | E : String.eqb field _ = false |- _ => rewrite E; clear E
         end.
  reflexivity.
Qed.

Lemma gt_zero_of_zero (x : number) :
  JsNumber.is_zero x = true -> JsNumber.gt x JsNumber.zero = false.
Proof. destruct x; try discriminate. reflexivity. Qed.

(** C4: with a spend of 0 the derived [roas] is [null], and a condition
    on [roas] is false for every operator and threshold; it yields a
    warning, not an error. *)
Theorem zero_spend_roas_condition_false
    (insights : CampaignInsights.t) :
  JsNumber.is_zero (parseFloat (CampaignInsights.spend insights)) = true ->
  CalculatedMetrics.roas (calculateMetrics (Some insights)) = None
  /\ (forall condition campaign lastUpdated,
        RuleCondition.field condition = "roas" ->
        evaluateCondition condition
          (CampaignWithInsights.mk campaign (Some insights)
             (calculateMetrics (Some insights)) lastUpdated)
        = (false, ["Could not get value for field: roas"])).
Proof.
  intros Hz.
  assert (Hr : CalculatedMetrics.roas (calculateMetrics (Some insights))
               = None).
  { unfold calculateMetrics. cbn [CalculatedMetrics.roas].
  rewrite (gt_zero_of_zero _ Hz). reflexivity. }
  split; [exact Hr |].
  intros condition campaign lastUpdated Hf.
  unfold evaluateCondition. rewrite Hf.
  unfold switch_field.
  cbn [String.eqb Ascii.eqb Bool.eqb CampaignWithInsights.calculatedMetrics].
  rewrite Hr. reflexivity.
Qed.

End ConditionFacts.

(** ** Arrays *)

Section ArrayFacts.

Context {A : Type}.
Implicit Types (p : A -> bool) (arr : list A).

Lemma findIndex_from_none p arr (i : Z) :
  (forall x, x ∈ arr -> p x = false) -> findIndex_from p arr i = (-1)%Z.
Proof.
  revert i. induction arr as [| x arr IH]; intros i Hall; [reflexivity |].
  cbn [findIndex_from]. rewrite (Hall x) by apply list_elem_of_here.
  apply IH. intros y Hy. apply Hall. apply list_elem_of_further, Hy.
Qed.

Lemma findIndex_from_first p (pre : list A) x post (i : Z) :
  p x = true ->
  (forall y, y ∈ pre -> p y = false) ->
  findIndex_from p (pre ++ x :: post) i = (i + Z.of_nat (length pre))%Z.
Proof.
  intros Hx. revert i. induction pre as [| y pre IH]; intros i Hpre.
  - cbn [app findIndex_from length]. rewrite Hx. lia.
  - cbn [app findIndex_from length].
    rewrite (Hpre y) by apply list_elem_of_here.
    rewrite IH; [lia |].
    intros z Hz. apply Hpre. apply list_elem_of_further, Hz.
Qed.

Lemma insert_middle (pre : list A) x y post :
  <[length pre := y]> (pre ++ x :: post) = pre ++ y :: post.
Proof.
  rewrite <- (Nat.add_0_r (length pre)). apply (insert_app_r pre (x :: post) 0 y).
Qed.

Lemma slice_last_short (k : nat) arr :
  length arr <= k -> slice_last k arr = arr.
Proof.
  intros Hk. unfold slice_last.
  replace (length arr - k) with 0 by lia. apply drop_0.
Qed.

Lemma slice_last_length (k : nat) arr : length (slice_last k arr) <= k.
Proof. unfold slice_last. rewrite length_drop. lia. Qed.

(** Cutting before or after further pushes leaves the same entries. *)
Lemma slice_last_app (k : nat) arr (more : list A) :
  slice_last k (slice_last k arr ++ more) = slice_last k (arr ++ more).
Proof.
  destruct (Nat.le_gt_cases (length arr) k) as [Hle | Hgt].
  - rewrite (slice_last_short k arr Hle). reflexivity.
  - unfold slice_last. rewrite !length_app, length_drop.
    rewrite !drop_app, drop_drop, length_drop.
    f_equal; f_equal; lia.
Qed.

Lemma slice_last_snoc_last (k : nat) arr x :
  0 < k -> last (slice_last k (arr ++ [x])) = Some x.
Proof.
  intros Hk. unfold slice_last. rewrite length_app. cbn [length].
  rewrite drop_app_le by lia. apply last_snoc.
Qed.

End ArrayFacts.

(** ** The stores *)

Section StoreFacts.

Context `{env : Environment}.

Lemma has_id_true ruleId rule :
  AutomationRule.id rule = ruleId -> has_id ruleId rule = true.
Proof. intros <-. apply String.eqb_refl. Qed.

Lemma has_id_false ruleId rule :
  AutomationRule.id rule <> ruleId -> has_id ruleId rule = false.
Proof. intros Hne. apply String.eqb_neq, Hne. Qed.

Lemma found_not_minus_one (n : nat) : (Z.of_nat n =? -1)%Z = false.
Proof. apply Z.eqb_neq. lia. Qed.


(** *** The log store *)

Lemma pushLog_run log st :
  pushLog log st
  = (tt, mkEngine (rules st) (slice_last 1000 (logs st ++ [log]))
                  (warnings st) (executed st) (uuid_draws st) (date_reads st)).
Proof.
  unfold pushLog, bind, get, set_logs.
  destruct (1000 <? length (logs st ++ [log]))%nat eqn:Hlen; [reflexivity |].
  apply Nat.ltb_ge in Hlen. rewrite (slice_last_short _ _ Hlen). reflexivity.
Qed.

Lemma logExecution_run rule campaignData triggered reason st :
  logExecution rule campaignData triggered reason st
  = (tt,
     mkEngine (rules st)
       (slice_last 1000
          (logs st ++ [logRecord (uuidv4 (uuid_draws st))
                                 (toISOString (date_reads st))
                                 rule campaignData triggered reason]))
       (warnings st) (executed st)
       (S (uuid_draws st)) (S (date_reads st))).
Proof.
  unfold logExecution, bind, new_uuid, new_Date. rewrite pushLog_run.
  reflexivity.
Qed.

Lemma forM_cons_run {A : Type} (body : A -> M unit) (a : A) (l : list A) st :
  forM_ (a :: l) body st = forM_ l body (body a st).2.
Proof. cbn [forM_]. unfold bind. destruct (body a st). reflexivity. Qed.

Lemma logAll_logs requests :
  forall st,
    length (logs st) <= 1000 ->
    logs (logAll requests st).2
    = slice_last 1000
        (logs st ++ imap (recordOf (uuid_draws st) (date_reads st)) requests).
Proof.
  unfold logAll.
  induction requests as [| request requests IH]; intros st Hlen.
  - cbn [forM_ imap]. unfold ret. cbn [snd].
    rewrite app_nil_r, slice_last_short; [reflexivity | exact Hlen].
  - rewrite forM_cons_run. destruct request as [[[rule data] triggered] reason].
    rewrite logExecution_run. cbn [snd]. rewrite IH.
    + cbn [logs uuid_draws date_reads]. rewrite slice_last_app.
      rewrite <- (assoc_L (++)). cbn [app]. rewrite imap_cons.
      f_equal. f_equal. f_equal.
      * unfold recordOf. rewrite !Nat.add_0_r. reflexivity.
      * apply imap_ext. intros k [[[r c] t] s] _. unfold recordOf, compose.
        rewrite !Nat.add_succ_comm. reflexivity.
    + cbn [logs]. apply slice_last_length.
Qed.

(** X28: after any append the log store holds at most 1000 entries; a run
    of appends that nothing interrupts keeps the last 1000 entries of the
    stored array followed by the new entries, so that what it drops is
    dropped from the front of the array; in particular 1001 appends to an
    empty store leave exactly the 1000 entries created last. *)
Theorem logExecution_keeps_the_tail_of_the_array :
  (forall rule campaignData triggered reason st,
      length (logs (logExecution rule campaignData triggered reason st).2)
      <= 1000)
  /\ (forall requests st,
        length (logs st) <= 1000 ->
        logs (logAll requests st).2
        = slice_last 1000
            (logs st
             ++ imap (recordOf (uuid_draws st) (date_reads st)) requests))
  /\ (forall requests st,
        logs st = [] ->
        length requests = 1001 ->
        let created :=
          imap (recordOf (uuid_draws st) (date_reads st)) requests in
        logs (logAll requests st).2 = drop 1 created
        /\ length (logs (logAll requests st).2) = 1000).
Proof.
  split; [| split].
  - intros. rewrite logExecution_run. cbn [snd logs].
    apply slice_last_length.
  - intros requests st Hroom. apply logAll_logs, Hroom.
  - intros requests st Hempty Hcount created.
    assert (Hlogs : logs (logAll requests st).2 = drop 1 created).
    { rewrite logAll_logs by (rewrite Hempty; cbn [length]; lia).
      rewrite Hempty. cbn [app]. unfold slice_last. fold created.
      replace (length created - 1000) with 1; [reflexivity |].
      subst created. rewrite length_imap, Hcount. lia. }
    split; [exact Hlogs |].
    rewrite Hlogs, length_drop. subst created.
    rewrite length_imap, Hcount. lia.
Qed.

(** *** Selection of the rules of a campaign *)

Lemma getRulesForCampaign_run campaignId st :
  getRulesForCampaign campaignId st
  = (List.filter (selected campaignId) (rules st), st).
Proof. reflexivity. Qed.

Lemma processCampaignRules_run campaignData st :
  processCampaignRules campaignData st
  = forM_ (getRulesForCampaign
             (Campaign.id (CampaignWithInsights.campaign campaignData)) st).1
          (processRule campaignData) st.
Proof. reflexivity. Qed.

(** C8: the rules processed for a campaign are exactly the stored rules
    with the campaign's id that are active; when there is none, the pass
    leaves the whole state as it is: no log entry, no call of the executor,
    no change of a rule. *)
Theorem processCampaignRules_selection
    (campaignData : CampaignWithInsights.t) (st : Engine) :
  let campaignId :=
    Campaign.id (CampaignWithInsights.campaign campaignData) in
  let selection := (getRulesForCampaign campaignId st).1 in
  (forall rule,
      rule ∈ selection
      <-> rule ∈ rules st
          /\ AutomationRule.campaignId rule = campaignId
          /\ AutomationRule.isActive rule = true)
  /\ processCampaignRules campaignData st
     = forM_ selection (processRule campaignData) st
  /\ (selection = [] -> processCampaignRules campaignData st = (tt, st)).
Proof.
  intros campaignId selection. split; [| split].
  - intros rule. subst selection. rewrite getRulesForCampaign_run. cbn [fst].
    rewrite !list_elem_of_In, filter_In. unfold selected.
    rewrite andb_true_iff, String.eqb_eq. reflexivity.
  - apply processCampaignRules_run.
  - intros Hnone. rewrite processCampaignRules_run.
    fold campaignId. fold selection. rewrite Hnone. reflexivity.
Qed.

(** *** Processing one rule *)

Lemma touch_lastTriggered_frame ruleId st :
  logs (touch_lastTriggered ruleId st).2 = logs st
  /\ warnings (touch_lastTriggered ruleId st).2 = warnings st
  /\ executed (touch_lastTriggered ruleId st).2 = executed st
  /\ uuid_draws (touch_lastTriggered ruleId st).2 = uuid_draws st.
Proof.
  unfold touch_lastTriggered, bind, get.
  destruct (findIndex (has_id ruleId) (rules st) =? -1)%Z;
    [repeat split |].
  destruct (rules st !! Z.to_nat (findIndex (has_id ruleId) (rules st)));
    repeat split.
Qed.

Lemma executeAction_rejected rule campaignData st error :
  executor (length (executed st))
           (Campaign.id (CampaignWithInsights.campaign campaignData))
           (RuleAction.type (AutomationRule.action rule))
           (RuleAction.parameters (AutomationRule.action rule))
  = Rejected error ->
  executeAction rule campaignData st
  = (false,
     mkEngine (rules st)
       (slice_last 1000
          (logs st ++ [logRecord (uuidv4 (uuid_draws st))
                         (toISOString (date_reads st)) rule campaignData false
                         ("Action failed: "
                          +:+ messageOr "Unknown error" error)]))
       (warnings st)
       (executed st ++
          [ActionCall.mk
             (Campaign.id (CampaignWithInsights.campaign campaignData))
             (RuleAction.type (AutomationRule.action rule))
             (RuleAction.parameters (AutomationRule.action rule))])
       (S (uuid_draws st)) (S (date_reads st))).
Proof.
  intros Hout. unfold executeAction, call_executor, bind, get, record_call.
  unfold ret at 1. rewrite Hout. rewrite logExecution_run. reflexivity.
Qed.

Lemma executeAction_resolved_run rule campaignData st result :
  executor (length (executed st))
           (Campaign.id (CampaignWithInsights.campaign campaignData))
           (RuleAction.type (AutomationRule.action rule))
           (RuleAction.parameters (AutomationRule.action rule))
  = Resolved result ->
  executeAction rule campaignData st
  = (ActionResult.success result,
     (touch_lastTriggered (AutomationRule.id rule)
        (mkEngine (rules st)
           (slice_last 1000
              (logs st ++ [logRecord (uuidv4 (uuid_draws st))
                             (toISOString (date_reads st)) rule campaignData
                             true
                             ("Action executed successfully: "
                              +:+ RuleAction.type
                                    (AutomationRule.action rule))]))
           (warnings st)
           (executed st ++
              [ActionCall.mk
                 (Campaign.id (CampaignWithInsights.campaign campaignData))
                 (RuleAction.type (AutomationRule.action rule))
                 (RuleAction.parameters (AutomationRule.action rule))])
           (S (uuid_draws st)) (S (date_reads st)))).2).
Proof.
  intros Hout. unfold executeAction, call_executor, bind, get, record_call.
  unfold ret at 1. rewrite Hout. rewrite logExecution_run.
  cbv beta iota. cbn [rules logs warnings executed uuid_draws date_reads].
  match goal with
  | |- context [touch_lastTriggered ?i ?s] =>
      destruct (touch_lastTriggered i s) as [[] st']
  end.
  reflexivity.
Qed.

Lemma executeAction_resolved rule campaignData st result :
  executor (length (executed st))
           (Campaign.id (CampaignWithInsights.campaign campaignData))
           (RuleAction.type (AutomationRule.action rule))
           (RuleAction.parameters (AutomationRule.action rule))
  = Resolved result ->
  logs (executeAction rule campaignData st).2
  = slice_last 1000
      (logs st ++ [logRecord (uuidv4 (uuid_draws st))
                     (toISOString (date_reads st)) rule campaignData true
                     ("Action executed successfully: "
                      +:+ RuleAction.type (AutomationRule.action rule))])
  /\ warnings (executeAction rule campaignData st).2 = warnings st
  /\ uuid_draws (executeAction rule campaignData st).2 = S (uuid_draws st).
Proof.
  intros Hout. rewrite (executeAction_resolved_run _ _ _ _ Hout). cbn [snd].
  match goal with
  | |- context [touch_lastTriggered ?i ?s] =>
      destruct (touch_lastTriggered_frame i s) as (Hl & Hw & _ & Hu)
  end.
  rewrite Hl, Hw, Hu. repeat split.
Qed.

Lemma processRule_run campaignData rule st :
  processRule campaignData rule st
  = let st1 :=
      mkEngine (rules st) (logs st)
               (warnings st ++ (evaluateRule rule campaignData).2)
               (executed st) (uuid_draws st) (date_reads st) in
    if (evaluateRule rule campaignData).1
    then (tt, (executeAction rule campaignData st1).2)
    else logExecution rule campaignData false "Rule conditions not met" st1.
Proof.
  unfold processRule.
  destruct (evaluateRule rule campaignData) as [[|] lines];
    unfold bind, console_warn; cbn [fst snd]; [| reflexivity].
  match goal with
  | |- context [executeAction rule campaignData ?s] =>
      destruct (executeAction rule campaignData s)
  end.
  reflexivity.
Qed.

(** Whatever the rule, processing it writes its warnings to the console
    and creates exactly one log entry, whose reason has one of three
    forms. *)
Lemma processRule_entry campaignData rule st :
  exists triggered reason,
    reason_form rule reason
    /\ logs (processRule campaignData rule st).2
       = slice_last 1000
           (logs st ++ [logRecord (uuidv4 (uuid_draws st))
                          (toISOString (date_reads st)) rule campaignData
                          triggered reason])
    /\ warnings (processRule campaignData rule st).2
       = warnings st ++ (evaluateRule rule campaignData).2
    /\ uuid_draws (processRule campaignData rule st).2 = S (uuid_draws st).
Proof.
  rewrite processRule_run. cbv zeta.
  set (st1 := mkEngine (rules st) (logs st)
                (warnings st ++ (evaluateRule rule campaignData).2)
                (executed st) (uuid_draws st) (date_reads st)).
  destruct (evaluateRule rule campaignData).1.
  - destruct (executor (length (executed st1))
                (Campaign.id (CampaignWithInsights.campaign campaignData))
                (RuleAction.type (AutomationRule.action rule))
                (RuleAction.parameters (AutomationRule.action rule)))
      as [result | error] eqn:Hout.
    + destruct (executeAction_resolved _ _ _ _ Hout) as (Hl & Hw & Hu).
      cbn [snd]. eexists true, _.
      split; [right; left; reflexivity |].
      rewrite Hl, Hw, Hu. repeat split.
    + rewrite (executeAction_rejected _ _ _ _ Hout). cbn [snd].
      eexists false, _.
      split; [right; right; eexists; reflexivity |].
      repeat split.
  - rewrite logExecution_run. cbn [snd].
    eexists false, _. split; [left; reflexivity |]. repeat split.
Qed.



(** *** Unknown fields *)

Lemma evaluateCondition_unknown condition campaignData :
  recognized (RuleCondition.field condition) = false ->
  evaluateCondition condition campaignData
  = (false, ["Unknown field: " +:+ RuleCondition.field condition]).
Proof.
  intros Hf. unfold evaluateCondition.
  rewrite (unrecognized_default _ _ Hf). reflexivity.
Qed.

Lemma combine_unknown condition campaignData (result : bool) :
  recognized (RuleCondition.field condition) = false ->
  combine campaignData result condition
  = if is_OR condition then result else false.
Proof.
  intros Hf. unfold combine. rewrite (evaluateCondition_unknown _ _ Hf).
  cbn [fst]. rewrite orb_false_r, andb_false_r. reflexivity.
Qed.

Lemma fold_warn_keeps campaignData (rest : list RuleCondition.t) :
  forall acc (line : string),
    line ∈ acc.2 -> line ∈ (foldl (combine_warn campaignData) acc rest).2.
Proof.
  induction rest as [| next rest IH]; intros acc line Hin; [exact Hin |].
  cbn [foldl]. apply IH. unfold combine_warn. cbn [snd].
  apply elem_of_app. left. exact Hin.
Qed.

Lemma fold_warn_mentions campaignData (rest : list RuleCondition.t) :
  forall acc condition (line : string),
    condition ∈ rest ->
    line ∈ (evaluateCondition condition campaignData).2 ->
    line ∈ (foldl (combine_warn campaignData) acc rest).2.
Proof.
  induction rest as [| next rest IH]; intros acc condition line Hc Hline.
  - apply elem_of_nil in Hc. destruct Hc.
  - cbn [foldl]. apply elem_of_cons in Hc. destruct Hc as [-> | Hc].
    + apply fold_warn_keeps. unfold combine_warn. cbn [snd].
      apply elem_of_app. right. exact Hline.
    + apply (IH _ condition); assumption.
Qed.

Lemma evaluateRule_warns rule campaignData condition (line : string) :
  condition ∈ AutomationRule.conditions rule ->
  line ∈ (evaluateCondition condition campaignData).2 ->
  line ∈ (evaluateRule rule campaignData).2.
Proof.
  intros Hc Hline.
  destruct (AutomationRule.conditions rule) as [| first rest] eqn:Hconds.
  - apply elem_of_nil in Hc. destruct Hc.
  - rewrite (evaluateRule_fold_warn _ _ _ _ Hconds).
    apply elem_of_cons in Hc. destruct Hc as [-> | Hc].
    + apply fold_warn_keeps. exact Hline.
    + apply (fold_warn_mentions _ _ _ condition); assumption.
Qed.

(** C7 (as the code has it): a condition on a field outside the recognized
    metric fields is false and sends "Unknown field: <field>" to the
    console warnings; the remaining conditions of its rule are still
    evaluated and folded, the rule still gets its one log entry, whose
    reason has one of the three fixed forms and so does not report the
    field, and the remaining rules are processed. *)
Theorem unknown_field_false_and_warned
    (condition : RuleCondition.t) (campaignData : CampaignWithInsights.t) :
  recognized (RuleCondition.field condition) = false ->
  let warning := "Unknown field: " +:+ RuleCondition.field condition in
  evaluateCondition condition campaignData = (false, [warning])
  /\ (forall rule later,
        AutomationRule.conditions rule = condition :: later ->
        (evaluateRule rule campaignData).1
        = foldl (combine campaignData) false later)
  /\ (forall rule first earlier later,
        AutomationRule.conditions rule
        = first :: earlier ++ condition :: later ->
        (evaluateRule rule campaignData).1
        = foldl (combine campaignData)
            (if is_OR condition
             then foldl (combine campaignData)
                        (evaluateCondition first campaignData).1 earlier
             else false)
            later)
  /\ (forall rule rest st,
        condition ∈ AutomationRule.conditions rule ->
        let after := (processRule campaignData rule st).2 in
        warning ∈ warnings after
        /\ (exists entry,
              last (logs after) = Some entry
              /\ AutomationLog.ruleId entry = AutomationRule.id rule
              /\ reason_form rule (AutomationLog.reason entry))
        /\ forM_ (rule :: rest) (processRule campaignData) st
           = forM_ rest (processRule campaignData) after).
Proof.
  intros Hf warning.
  pose proof (evaluateCondition_unknown condition campaignData Hf) as Heval.
  split; [exact Heval | split; [| split]].
  - intros rule later Hc.
    rewrite (evaluateRule_fold _ _ _ _ Hc), Heval. reflexivity.
  - intros rule first earlier later Hc.
    rewrite (evaluateRule_fold _ _ _ _ Hc).
    rewrite foldl_app. cbn [foldl].
    rewrite (combine_unknown _ _ _ Hf). reflexivity.
  - intros rule rest st Hin after.
    destruct (processRule_entry campaignData rule st)
      as (triggered & reason & Hform & Hlogs & Hwarn & _).
    fold after in Hlogs, Hwarn. split; [| split].
    + rewrite Hwarn. apply elem_of_app. right.
      apply (evaluateRule_warns _ _ condition); [exact Hin |].
      rewrite Heval. apply list_elem_of_here.
    + eexists. split; [rewrite Hlogs; apply slice_last_snoc_last; lia |].
      split; [reflexivity | exact Hform].
    + apply forM_cons_run.
Qed.

(** *** Creation and deletion *)

Lemma addCondition_run (form : ConditionForm.t) st :
  addCondition form st
  = (RuleCondition.mk (uuidv4 (uuid_draws st))
       (ConditionForm.field form) (ConditionForm.operator form)
       (ConditionForm.value form) (ConditionForm.logicalOperator form),
     mkEngine (rules st) (logs st) (warnings st) (executed st)
              (S (uuid_draws st)) (date_reads st)).
Proof. reflexivity. Qed.

Lemma mapM_addCondition_run (forms : list ConditionForm.t) :
  forall st,
    exists conditions,
      mapM addCondition forms st
      = (conditions,
         mkEngine (rules st) (logs st) (warnings st) (executed st)
                  (uuid_draws st + length forms) (date_reads st))
      /\ length conditions = length forms.
Proof.
  induction forms as [| form forms IH]; intros st.
  - exists []. split; [| reflexivity].
    cbn [mapM length]. unfold ret. rewrite Nat.add_0_r.
    destruct st; reflexivity.
  - cbn [mapM]. unfold bind at 1. rewrite addCondition_run.
    unfold bind, ret.
    match goal with
    | |- context [mapM addCondition forms ?s] =>
        destruct (IH s) as (conditions & Heq & Hlen); rewrite Heq
    end.
    cbn [rules logs warnings executed uuid_draws date_reads length].
    eexists. split.
    + apply f_equal2; [reflexivity |]. f_equal. lia.
    + cbn [length]. rewrite Hlen. reflexivity.
Qed.

Lemma addRule_run (form : RuleForm.t) st :
  rules (addRule form st).2 = rules st ++ [(addRule form st).1]
  /\ length (AutomationRule.conditions (addRule form st).1)
     = length (RuleForm.conditions form).
Proof.
  unfold addRule, bind, new_uuid, new_Date, get, set_rules.
  match goal with
  | |- context [mapM addCondition ?forms ?s] =>
      destruct (mapM_addCondition_run forms s) as (conditions & Heq & Hlen);
      rewrite Heq
  end.
  unfold ret. cbn [fst snd rules AutomationRule.conditions].
  split; [reflexivity | exact Hlen].
Qed.

Lemma deleteRule_run (ruleId : string) st :
  deleteRule ruleId st
  = if (findIndex (has_id ruleId) (rules st) =? -1)%Z then (false, st)
    else (true,
          mkEngine
            (delete (Z.to_nat (findIndex (has_id ruleId) (rules st)))
                    (rules st))
            (logs st) (warnings st) (executed st)
            (uuid_draws st) (date_reads st)).
Proof.
  unfold deleteRule, bind, get.
  destruct (findIndex (has_id ruleId) (rules st) =? -1)%Z; reflexivity.
Qed.

(** A creation request either leaves the rule store as it is or appends
    one rule, which has a condition and is the payload of the response. *)
Lemma POST_stores (request : Settled CreateRuleForm.t) st :
  (POST request st).2 = st
  \/ exists newRule,
       rules (POST request st).2 = rules st ++ [newRule]
       /\ has_conditions newRule
       /\ Response.data (POST request st).1 = Some newRule.
Proof.
  unfold POST. destruct request as [body | error]; [| left; reflexivity].
  destruct (falsy (CreateRuleForm.name body)
            || falsy (CreateRuleForm.campaignId body)
            || CreateRuleForm.conditions_falsy (CreateRuleForm.conditions body)
            || falsy (CreateRuleForm.actionType body));
    [left; reflexivity |].
  destruct (CreateRuleForm.conditions body) as [| | forms];
    try (left; reflexivity).
  destruct forms as [| form forms]; [left; reflexivity |].
  right. cbn [CreateRuleForm.isArray CreateRuleForm.elements negb length
              Nat.eqb orb].
  unfold bind.
  match goal with
  | |- context [addRule ?f st] =>
      destruct (addRule_run f st) as [Hrules Hlen];
      destruct (addRule f st) as [newRule st']
  end.
  cbn [fst snd RuleForm.conditions length] in *. unfold ret. cbn [fst snd].
  exists newRule. split; [exact Hrules | split; [| reflexivity]].
  unfold has_conditions. intros Hnil. rewrite Hnil in Hlen. discriminate Hlen.
Qed.

Lemma POST_keeps_conditions (request : Settled CreateRuleForm.t) st :
  Forall has_conditions (rules st) ->
  Forall has_conditions (rules (POST request st).2).
Proof.
  intros Hall.
  destruct (POST_stores request st) as [-> | (newRule & -> & Hnew & _)];
    [exact Hall |].
  apply Forall_app. split; [exact Hall |].
  apply Forall_cons. split; [exact Hnew | apply Forall_nil_2].
Qed.

(** C9 (as the code has it): a creation request whose conditions are the
    empty array is answered with status 400 and changes nothing; a rule
    that creation stores has at least one condition, and neither creation
    nor deletion makes a stored rule lose its conditions. *)
Theorem POST_requires_a_condition (st : Engine) :
  (forall body,
      CreateRuleForm.conditions body = CreateRuleForm.ConditionArray [] ->
      Response.status (POST (Resolved body) st).1 = 400
      /\ Response.success (POST (Resolved body) st).1 = false
      /\ Response.data (POST (Resolved body) st).1 = None
      /\ (POST (Resolved body) st).2 = st)
  /\ (forall request,
        (POST request st).2 = st
        \/ exists newRule,
             rules (POST request st).2 = rules st ++ [newRule]
             /\ has_conditions newRule
             /\ Response.data (POST request st).1 = Some newRule)
  /\ (forall request,
        Forall has_conditions (rules st) ->
        Forall has_conditions (rules (POST request st).2))
  /\ (forall ruleId,
        Forall has_conditions (rules st) ->
        Forall has_conditions (rules (DELETE ruleId st).2)).
Proof.
  split; [| split; [| split]].
  - intros body Hc. unfold POST. rewrite Hc.
    destruct (falsy (CreateRuleForm.name body)
              || falsy (CreateRuleForm.campaignId body)
              || CreateRuleForm.conditions_falsy
                   (CreateRuleForm.ConditionArray [])
              || falsy (CreateRuleForm.actionType body));
      repeat split.
  - intros request. apply POST_stores.
  - intros request. apply POST_keeps_conditions.
  - intros ruleId Hall. unfold DELETE.
    destruct (falsy ruleId); [exact Hall |].
    unfold bind. rewrite deleteRule_run.
    destruct (findIndex (has_id (default "" ruleId)) (rules st) =? -1)%Z;
      [exact Hall |].
    unfold ret. cbn [snd rules]. apply Forall_delete, Hall.
Qed.

End StoreFacts.

(** * The properties on concrete runs *)

Section Runs.

Import Sample.

(** ** Rules *)

Lemma evaluateRule_left_fold_witness :
  (evaluateRule (env := simulatedEnv) orOnSecond noInsights).1
  = foldl (combine (env := simulatedEnv) noInsights)
          (evaluateCondition (env := simulatedEnv) (spendAtLeast0 None)
                             noInsights).1
          [spendAbove0 (Some "OR")]
  /\ (evaluateRule (env := simulatedEnv) orOnSecond noInsights).1 = true.
Proof.
  destruct (evaluateRule_left_fold (env := simulatedEnv) orOnSecond noInsights
              (spendAtLeast0 None) [spendAbove0 (Some "OR")] eq_refl)
    as [Hfold Htwo].
  split; [exact Hfold |].
  apply (Htwo (spendAbove0 (Some "OR")) eq_refl eq_refl).
  vm_compute. reflexivity.
Defined.

(** C1 as stated fails: the first condition carries OR and is true, the
    second carries no operator and is false, and the rule is false: the
    operator of the first condition is never read. *)
Lemma evaluateRule_ignores_operator_of_first :
  AutomationRule.conditions orOnFirst
  = [spendAtLeast0 (Some "OR"); spendAbove0 None]
  /\ (evaluateCondition (env := simulatedEnv) (spendAtLeast0 (Some "OR"))
                        noInsights).1 = true
  /\ (evaluateCondition (env := simulatedEnv) (spendAbove0 None)
                        noInsights).1 = false
  /\ (evaluateRule (env := simulatedEnv) orOnFirst noInsights).1 = false.
Proof. vm_compute. repeat split. Qed.

Lemma zero_spend_roas_condition_false_witness :
  JsNumber.is_zero
    (parseFloat (Environment := simulatedEnv)
                (CampaignInsights.spend zeroSpend)) = true
  /\ CalculatedMetrics.roas
       (calculateMetrics (env := simulatedEnv) (Some zeroSpend)) = None
  /\ evaluateCondition (env := simulatedEnv)
       (roasBelow (JsNumber.literal 15 1))
       (CampaignWithInsights.mk campaign (Some zeroSpend)
          (calculateMetrics (env := simulatedEnv) (Some zeroSpend))
          "2024-02-01")
     = (false, ["Could not get value for field: roas"]).
Proof.
  assert (Hzero : JsNumber.is_zero
                    (parseFloat (Environment := simulatedEnv)
                                (CampaignInsights.spend zeroSpend)) = true)
    by (vm_compute; reflexivity).
  destruct (zero_spend_roas_condition_false (env := simulatedEnv)
              zeroSpend Hzero) as [Hroas Hcond].
  split; [exact Hzero | split; [exact Hroas |]].
  apply Hcond. reflexivity.
Defined.

Lemma unknown_field_false_and_warned_witness :
  recognized (RuleCondition.field bogus) = false
  /\ evaluateCondition (env := simulatedEnv) bogus noInsights
     = (false, ["Unknown field: bogus"])
  /\ "Unknown field: bogus"
     ∈ warnings (processRule (env := simulatedEnv) noInsights unknownField
                             (store [unknownField])).2.
Proof.
  assert (Hf : recognized (RuleCondition.field bogus) = false)
    by (vm_compute; reflexivity).
  destruct (unknown_field_false_and_warned (env := simulatedEnv)
              bogus noInsights Hf) as (Heval & _ & _ & Hrule).
  split; [exact Hf | split; [exact Heval |]].
  apply (Hrule unknownField [] (store [unknownField])).
  apply list_elem_of_here.
Defined.

(** C7 as stated fails: the only condition of the rule names an unknown
    field; the pass writes the warning to the console, and the reason of
    the log entry is the one of any rule whose conditions are not met. *)
Lemma unknown_field_absent_from_log_reason :
  recognized "bogus" = false
  /\ AutomationLog.reason
       <$> logs (processCampaignRules (env := simulatedEnv) noInsights
                   (store [unknownField])).2
     = ["Rule conditions not met"]
  /\ warnings (processCampaignRules (env := simulatedEnv) noInsights
                 (store [unknownField])).2
     = ["Unknown field: bogus"].
Proof. vm_compute. repeat split. Qed.

(** ** Execution *)



(** ** The rule store *)



Lemma processCampaignRules_selection_witness :
  (getRulesForCampaign
     (Campaign.id (CampaignWithInsights.campaign noInsights))
     (store [otherCampaign])).1 = []
  /\ processCampaignRules (env := simulatedEnv) noInsights
       (store [otherCampaign])
     = (tt, store [otherCampaign]).
Proof.
  assert (Hnone : (getRulesForCampaign
                     (Campaign.id (CampaignWithInsights.campaign noInsights))
                     (store [otherCampaign])).1 = [])
    by (vm_compute; reflexivity).
  destruct (processCampaignRules_selection (env := simulatedEnv) noInsights
              (store [otherCampaign])) as (_ & _ & Hempty).
  split; [exact Hnone | exact (Hempty Hnone)].
Defined.

Lemma POST_requires_a_condition_witness :
  Response.status
    (POST (env := simulatedEnv)
          (Resolved (creation (CreateRuleForm.ConditionArray []))) created).1
  = 400
  /\ (POST (env := simulatedEnv)
           (Resolved (creation (CreateRuleForm.ConditionArray []))) created).2
     = created
  /\ Forall has_conditions
       (rules (POST (env := simulatedEnv)
                    (Resolved (creation oneCondition)) initial).2).
Proof.
  destruct (POST_requires_a_condition (env := simulatedEnv) created)
    as (Hreject & _).
  destruct (POST_requires_a_condition (env := simulatedEnv) initial)
    as (_ & _ & Hkeep & _).
  destruct (Hreject (creation (CreateRuleForm.ConditionArray [])) eq_refl)
    as (Hstatus & _ & _ & Hsame).
  split; [exact Hstatus | split; [exact Hsame |]].
  apply Hkeep. apply Forall_nil_2.
Defined.

(** C9 as stated fails in its last part: an update request that carries an
    empty [conditions] array is accepted, and the stored rule is left
    without conditions. *)
Lemma update_can_empty_conditions :
  AutomationRule.id <$> rules created = ["uuid-0"]
  /\ Forall has_conditions (rules created)
  /\ Response.status
       (PUT (env := simulatedEnv)
            (Resolved (UpdateRuleBody.mk (Some "uuid-0") emptying))
            created).1 = 200
  /\ AutomationRule.conditions
       <$> rules (PUT (env := simulatedEnv)
                      (Resolved (UpdateRuleBody.mk (Some "uuid-0") emptying))
                      created).2
     = [[]]
  /\ ~ Forall has_conditions
         (rules (PUT (env := simulatedEnv)
                     (Resolved (UpdateRuleBody.mk (Some "uuid-0") emptying))
                     created).2).
Proof.
  split; [vm_compute; reflexivity |].
  split.
  { apply (POST_keeps_conditions (env := simulatedEnv)). apply Forall_nil_2. }
  split; [vm_compute; reflexivity |].
  split; [vm_compute; reflexivity |].
  intros Hall.
  assert (Hrules :
    exists rule rest,
      rules (PUT (env := simulatedEnv)
                 (Resolved (UpdateRuleBody.mk (Some "uuid-0") emptying))
                 created).2 = rule :: rest
      /\ AutomationRule.conditions rule = []).
  { eexists _, _. split; vm_compute; reflexivity. }
  destruct Hrules as (rule & rest & Hrules & Hnil).
  rewrite Hrules in Hall. apply Forall_cons in Hall.
  destruct Hall as [Hrule _]. apply Hrule. exact Hnil.
Qed.

(** ** The log store *)

Lemma logExecution_keeps_the_tail_of_the_array_witness :
  logs (store []) = []
  /\ length requests = 1001
  /\ logs (logAll (env := simulatedEnv) requests (store [])).2
     = drop 1 (imap (recordOf (env := simulatedEnv) 0 0) requests)
  /\ length (logs (logAll (env := simulatedEnv) requests (store [])).2) = 1000.
Proof.
  assert (Hcount : length requests = 1001) by (vm_compute; reflexivity).
  destruct (logExecution_keeps_the_tail_of_the_array (env := simulatedEnv))
    as (_ & _ & Hfifo).
  destruct (Hfifo requests (store []) eq_refl Hcount)
    as [Hkept Hsize].
  split; [reflexivity | split; [exact Hcount | split]].
  - exact Hkept.
  - exact Hsize.
Defined.

End Runs.

(** * Properties of the further functions *)

(** ** The rule store *)

Section RuleStoreFacts.

Context `{env : Environment}.

Lemma mapM_addCondition_exact (forms : list ConditionForm.t) :
  forall st,
    mapM addCondition forms st
    = (imap (fun k form =>
               RuleCondition.mk (uuidv4 (uuid_draws st + k))
                 (ConditionForm.field form) (ConditionForm.operator form)
                 (ConditionForm.value form)
                 (ConditionForm.logicalOperator form))
            forms,
       mkEngine (rules st) (logs st) (warnings st) (executed st)
                (uuid_draws st + length forms) (date_reads st)).
Proof.
  induction forms as [| form forms IH]; intros st.
  - cbn [mapM imap length]. unfold ret. rewrite Nat.add_0_r.
    destruct st; reflexivity.
  - cbn [mapM]. unfold bind at 1. rewrite addCondition_run.
    unfold bind, ret. rewrite IH.
    cbn [rules logs warnings executed uuid_draws date_reads length].
    rewrite imap_cons. rewrite Nat.add_0_r.
    f_equal; [f_equal | f_equal; lia].
    apply imap_ext. intros k form' _. unfold compose.
    rewrite Nat.add_succ_comm. reflexivity.
Qed.

Lemma strip_imap (u : nat) (forms : list ConditionForm.t) :
  strip
  <$> imap (fun k form =>
              RuleCondition.mk (uuidv4 (u + k))
                (ConditionForm.field form) (ConditionForm.operator form)
                (ConditionForm.value form)
                (ConditionForm.logicalOperator form))
           forms
  = forms.
Proof.
  revert u. induction forms as [| form forms IH]; intros u; [reflexivity |].
  rewrite imap_cons, fmap_cons. f_equal; [destruct form; reflexivity |].
  rewrite <- (IH (S u)) at 2. f_equal. apply imap_ext.
  intros k form' _. unfold compose. rewrite Nat.add_succ_comm. reflexivity.
Qed.

Lemma ids_imap (u : nat) (forms : list ConditionForm.t) :
  RuleCondition.id
  <$> imap (fun k form =>
              RuleCondition.mk (uuidv4 (u + k))
                (ConditionForm.field form) (ConditionForm.operator form)
                (ConditionForm.value form)
                (ConditionForm.logicalOperator form))
           forms
  = uuidv4 <$> seq u (length forms).
Proof.
  revert u. induction forms as [| form forms IH]; intros u; [reflexivity |].
  rewrite imap_cons. cbn [length seq fmap list_fmap].
  rewrite Nat.add_0_r. f_equal.
  rewrite <- (IH (S u)). f_equal. apply imap_ext.
  intros k form' _. unfold compose. rewrite Nat.add_succ_comm. reflexivity.
Qed.

Lemma addRule_exact (form : RuleForm.t) st :
  addRule form st
  = (let newRule :=
       AutomationRule.mk (uuidv4 (uuid_draws st)) (RuleForm.name form)
         (RuleForm.description form) (RuleForm.campaignId form)
         (imap (fun k c =>
                  RuleCondition.mk (uuidv4 (S (uuid_draws st) + k))
                    (ConditionForm.field c) (ConditionForm.operator c)
                    (ConditionForm.value c) (ConditionForm.logicalOperator c))
               (RuleForm.conditions form))
         (RuleForm.action form) (RuleForm.isActive form)
         (toISOString (date_reads st)) (toISOString (S (date_reads st)))
         (RuleForm.lastTriggered form) in
     (newRule,
      mkEngine (rules st ++ [newRule]) (logs st) (warnings st) (executed st)
        (S (uuid_draws st) + length (RuleForm.conditions form))
        (S (S (date_reads st))))).
Proof.
  unfold addRule, bind, new_uuid, new_Date, get, set_rules.
  rewrite mapM_addCondition_exact. reflexivity.
Qed.

(** X1: [addRule] appends the new rule after the stored ones and leaves the
    logs alone; the rule carries the conditions of the form, in order and
    field by field, the first identifier drawn, the following ones on its
    conditions, and two successive clock reads as [createdAt] and
    [updatedAt]. *)
Theorem addRule_appends (form : RuleForm.t) (st : Engine) :
  rules (addRule form st).2 = rules st ++ [(addRule form st).1]
  /\ logs (addRule form st).2 = logs st
  /\ strip <$> AutomationRule.conditions (addRule form st).1
     = RuleForm.conditions form
  /\ AutomationRule.id (addRule form st).1 = uuidv4 (uuid_draws st)
  /\ RuleCondition.id <$> AutomationRule.conditions (addRule form st).1
     = uuidv4 <$> seq (S (uuid_draws st)) (length (RuleForm.conditions form))
  /\ AutomationRule.createdAt (addRule form st).1 = toISOString (date_reads st)
  /\ AutomationRule.updatedAt (addRule form st).1
     = toISOString (S (date_reads st)).
Proof.
  rewrite addRule_exact. cbv zeta.
  cbn [fst snd rules logs AutomationRule.conditions AutomationRule.id
       AutomationRule.createdAt AutomationRule.updatedAt].
  repeat split.
  - apply strip_imap.
  - apply ids_imap.
Qed.

Lemma deleteRule_absent (ruleId : string) st :
  (forall rule, rule ∈ rules st -> AutomationRule.id rule <> ruleId) ->
  deleteRule ruleId st = (false, st).
Proof.
  intros Hnone. rewrite deleteRule_run. unfold findIndex.
  rewrite findIndex_from_none; [reflexivity |].
  intros rule Hin. apply has_id_false, Hnone, Hin.
Qed.

Lemma deleteRule_present (ruleId : string) st before rule after :
  rules st = before ++ rule :: after ->
  AutomationRule.id rule = ruleId ->
  (forall r, r ∈ before -> AutomationRule.id r <> ruleId) ->
  deleteRule ruleId st
  = (true,
     mkEngine (before ++ after) (logs st) (warnings st) (executed st)
              (uuid_draws st) (date_reads st)).
Proof.
  intros Hrules Hid Hbefore.
  rewrite deleteRule_run. unfold findIndex. rewrite Hrules.
  rewrite findIndex_from_first by (auto using has_id_true, has_id_false).
  rewrite Z.add_0_l, found_not_minus_one, Nat2Z.id, delete_middle.
  reflexivity.
Qed.

(** X2: [deleteRule] answers [false] and changes nothing when no rule has
    the id; otherwise it answers [true] and removes the first rule with the
    id, keeping the other rules in their order and the logs as they are. *)
Theorem deleteRule_removes_first (ruleId : string) (st : Engine) :
  ((forall rule, rule ∈ rules st -> AutomationRule.id rule <> ruleId) ->
   deleteRule ruleId st = (false, st))
  /\ (forall before rule after,
        rules st = before ++ rule :: after ->
        AutomationRule.id rule = ruleId ->
        (forall r, r ∈ before -> AutomationRule.id r <> ruleId) ->
        deleteRule ruleId st
        = (true,
           mkEngine (before ++ after) (logs st) (warnings st) (executed st)
                    (uuid_draws st) (date_reads st))).
Proof.
  split; [apply deleteRule_absent |].
  intros before rule after. apply deleteRule_present.
Qed.

(** X3: when the identifier that [addRule] draws is not the id of a stored
    rule, deleting the rule just added gives back the rule store as it
    was. *)
Theorem addRule_then_deleteRule (form : RuleForm.t) (st : Engine) :
  (forall rule, rule ∈ rules st ->
                AutomationRule.id rule <> uuidv4 (uuid_draws st)) ->
  (deleteRule (AutomationRule.id (addRule form st).1) (addRule form st).2).1
  = true
  /\ rules (deleteRule (AutomationRule.id (addRule form st).1)
                       (addRule form st).2).2
     = rules st
  /\ logs (deleteRule (AutomationRule.id (addRule form st).1)
                      (addRule form st).2).2
     = logs st.
Proof.
  intros Hfresh. rewrite addRule_exact. cbv zeta.
  cbn [fst snd AutomationRule.id].
  erewrite deleteRule_present;
    [| cbn [rules]; reflexivity | reflexivity | exact Hfresh].
  cbn [fst snd rules logs]. rewrite app_nil_r. repeat split.
Qed.

End RuleStoreFacts.

(** ** Passes over the rules of a campaign *)

Section PassFacts.

Context `{env : Environment}.

Lemma touch_lastTriggered_absent (ruleId : string) st :
  (forall rule, rule ∈ rules st -> AutomationRule.id rule <> ruleId) ->
  touch_lastTriggered ruleId st = (tt, st).
Proof.
  intros Hnone. unfold touch_lastTriggered, bind, get, findIndex.
  rewrite findIndex_from_none; [reflexivity |].
  intros rule Hin. apply has_id_false, Hnone, Hin.
Qed.

Lemma touch_lastTriggered_present (ruleId : string) st before rule after :
  rules st = before ++ rule :: after ->
  AutomationRule.id rule = ruleId ->
  (forall r, r ∈ before -> AutomationRule.id r <> ruleId) ->
  touch_lastTriggered ruleId st
  = (tt,
     mkEngine
       (before
        ++ AutomationRule.set_lastTriggered (toISOString (date_reads st)) rule
        :: after)
       (logs st) (warnings st) (executed st)
       (uuid_draws st) (S (date_reads st))).
Proof.
  intros Hrules Hid Hbefore.
  unfold touch_lastTriggered, bind, get, findIndex. rewrite Hrules.
  rewrite findIndex_from_first by (auto using has_id_true, has_id_false).
  rewrite Z.add_0_l, found_not_minus_one, Nat2Z.id.
  rewrite list_lookup_middle by reflexivity.
  unfold new_Date, set_rules.
  cbn [rules logs warnings executed uuid_draws date_reads].
  rewrite insert_middle. reflexivity.
Qed.

Lemma forget_set_lastTriggered stamp rule :
  forget_lastTriggered (AutomationRule.set_lastTriggered stamp rule)
  = forget_lastTriggered rule.
Proof. reflexivity. Qed.

Lemma touch_lastTriggered_forget (ruleId : string) st :
  forget_lastTriggered <$> rules (touch_lastTriggered ruleId st).2
  = forget_lastTriggered <$> rules st.
Proof.
  unfold touch_lastTriggered, bind, get.
  destruct (findIndex (has_id ruleId) (rules st) =? -1)%Z; [reflexivity |].
  destruct (rules st !! Z.to_nat (findIndex (has_id ruleId) (rules st)))
    as [rule |] eqn:Hlookup; [| reflexivity].
  unfold new_Date, set_rules. cbn [snd rules].
  rewrite list_fmap_insert, forget_set_lastTriggered.
  apply list_insert_id. rewrite list_lookup_fmap, Hlookup. reflexivity.
Qed.

(** X4: when the executor resolves, whatever the [success] flag of its
    result, [executeAction] logs the rule as triggered with the reason
    "Action executed successfully: <type>", stamps [lastTriggered] on the
    first stored rule with the rule's id with a later clock read than the
    one of the log entry, touches no other rule, and returns the flag. *)
Theorem executeAction_resolved_stamps
    (rule : AutomationRule.t) (campaignData : CampaignWithInsights.t)
    (st : Engine) (result : ActionResult.t)
    (before : list AutomationRule.t) (stored : AutomationRule.t)
    (after : list AutomationRule.t) :
  executor (length (executed st))
           (Campaign.id (CampaignWithInsights.campaign campaignData))
           (RuleAction.type (AutomationRule.action rule))
           (RuleAction.parameters (AutomationRule.action rule))
  = Resolved result ->
  rules st = before ++ stored :: after ->
  AutomationRule.id stored = AutomationRule.id rule ->
  (forall r, r ∈ before -> AutomationRule.id r <> AutomationRule.id rule) ->
  executeAction rule campaignData st
  = (ActionResult.success result,
     mkEngine
       (before
        ++ AutomationRule.set_lastTriggered
             (toISOString (S (date_reads st))) stored
        :: after)
       (slice_last 1000
          (logs st ++ [logRecord (uuidv4 (uuid_draws st))
                         (toISOString (date_reads st)) rule campaignData true
                         ("Action executed successfully: "
                          +:+ RuleAction.type (AutomationRule.action rule))]))
       (warnings st)
       (executed st ++ [call_of campaignData rule])
       (S (uuid_draws st)) (S (S (date_reads st)))).
Proof.
  intros Hout Hrules Hid Hbefore.
  rewrite (executeAction_resolved_run _ _ _ _ Hout).
  erewrite touch_lastTriggered_present;
    [reflexivity | cbn [rules]; exact Hrules | exact Hid | exact Hbefore].
Qed.

(** *** What one round of the loop does to each part of the state *)

Lemma processRule_executed campaignData rule st :
  executed (processRule campaignData rule st).2
  = executed st
    ++ (if (evaluateRule rule campaignData).1
        then [call_of campaignData rule] else []).
Proof.
  rewrite processRule_run. cbv zeta.
  destruct (evaluateRule rule campaignData).1.
  - match goal with
    | |- context [executeAction rule campaignData ?s] => set (st1 := s)
    end.
    destruct (executor (length (executed st1))
                (Campaign.id (CampaignWithInsights.campaign campaignData))
                (RuleAction.type (AutomationRule.action rule))
                (RuleAction.parameters (AutomationRule.action rule)))
      as [result | error] eqn:Hout.
    + rewrite (executeAction_resolved_run _ _ _ _ Hout). cbn [snd].
      match goal with
      | |- context [touch_lastTriggered ?i ?s] =>
          destruct (touch_lastTriggered_frame i s) as (_ & _ & -> & _)
      end.
      reflexivity.
    + rewrite (executeAction_rejected _ _ _ _ Hout). reflexivity.
  - rewrite logExecution_run. cbn [snd executed]. rewrite app_nil_r.
    reflexivity.
Qed.

Lemma processRule_forget campaignData rule st :
  forget_lastTriggered <$> rules (processRule campaignData rule st).2
  = forget_lastTriggered <$> rules st.
Proof.
  rewrite processRule_run. cbv zeta.
  destruct (evaluateRule rule campaignData).1.
  - match goal with
    | |- context [executeAction rule campaignData ?s] => set (st1 := s)
    end.
    destruct (executor (length (executed st1))
                (Campaign.id (CampaignWithInsights.campaign campaignData))
                (RuleAction.type (AutomationRule.action rule))
                (RuleAction.parameters (AutomationRule.action rule)))
      as [result | error] eqn:Hout.
    + rewrite (executeAction_resolved_run _ _ _ _ Hout). cbn [snd].
      rewrite touch_lastTriggered_forget. reflexivity.
    + rewrite (executeAction_rejected _ _ _ _ Hout). reflexivity.
  - rewrite logExecution_run. reflexivity.
Qed.

Lemma processRule_untriggered campaignData rule st :
  (evaluateRule rule campaignData).1 = false ->
  rules (processRule campaignData rule st).2 = rules st
  /\ executed (processRule campaignData rule st).2 = executed st.
Proof.
  intros Hfalse. rewrite processRule_run. cbv zeta. rewrite Hfalse.
  rewrite logExecution_run. split; reflexivity.
Qed.

(** The entries of a pass: one for each rule, in the order of the rules. *)
Lemma pass_logs campaignData (selection : list AutomationRule.t) :
  forall st,
    length (logs st) <= 1000 ->
    exists entries,
      logs (forM_ selection (processRule campaignData) st).2
      = slice_last 1000 (logs st ++ entries)
      /\ AutomationLog.ruleId <$> entries = AutomationRule.id <$> selection
      /\ Forall (fun entry =>
                   AutomationLog.campaignId entry
                   = Campaign.id (CampaignWithInsights.campaign campaignData))
                entries.
Proof.
  induction selection as [| rule selection IH]; intros st Hlen.
  - exists []. cbn [forM_]. unfold ret. cbn [snd].
    rewrite app_nil_r, slice_last_short by exact Hlen.
    split; [reflexivity | split; [reflexivity | constructor]].
  - rewrite forM_cons_run.
    destruct (processRule_entry campaignData rule st)
      as (triggered & reason & _ & Hlogs & _ & _).
    destruct (IH (processRule campaignData rule st).2)
      as (entries & Hrest & Hids & Hcampaign).
    { rewrite Hlogs. apply slice_last_length. }
    eexists (_ :: entries). split; [| split].
    + rewrite Hrest, Hlogs, slice_last_app, <- (assoc_L (++)). reflexivity.
    + cbn [fmap list_fmap]. rewrite <- Hids. reflexivity.
    + constructor; [reflexivity | exact Hcampaign].
Qed.

(** X5: a pass over a campaign writes one log entry for each selected
    rule, in the order of the rules and under the campaign's id; with at
    most 1000 entries before, the store holds afterwards the last 1000 of
    the old entries followed by the new ones. *)
Theorem processCampaignRules_logs_each_rule
    (campaignData : CampaignWithInsights.t) (st : Engine) :
  length (logs st) <= 1000 ->
  let campaignId :=
    Campaign.id (CampaignWithInsights.campaign campaignData) in
  let selection := List.filter (selected campaignId) (rules st) in
  exists entries,
    logs (processCampaignRules campaignData st).2
    = slice_last 1000 (logs st ++ entries)
    /\ AutomationLog.ruleId <$> entries = AutomationRule.id <$> selection
    /\ Forall (fun entry => AutomationLog.campaignId entry = campaignId)
              entries
    /\ length (logs (processCampaignRules campaignData st).2)
       = Nat.min 1000 (length (logs st) + length selection).
Proof.
  intros Hlen campaignId selection. rewrite processCampaignRules_run.
  rewrite getRulesForCampaign_run. cbn [fst].
  fold campaignId. fold selection.
  destruct (pass_logs campaignData selection st Hlen)
    as (entries & Hlogs & Hids & Hcampaign).
  exists entries. split; [exact Hlogs | split; [exact Hids | split]].
  - exact Hcampaign.
  - rewrite Hlogs. unfold slice_last. rewrite length_drop, length_app.
    assert (Hn : length entries = length selection).
    { rewrite <- (length_fmap AutomationLog.ruleId), Hids.
      apply length_fmap. }
    rewrite Hn. lia.
Qed.

Lemma pass_executed campaignData (selection : list AutomationRule.t) :
  forall st,
    executed (forM_ selection (processRule campaignData) st).2
    = executed st
      ++ (call_of campaignData
          <$> List.filter (fun rule => (evaluateRule rule campaignData).1)
                          selection).
Proof.
  induction selection as [| rule selection IH]; intros st.
  - cbn [forM_ List.filter fmap list_fmap]. unfold ret. cbn [snd].
    rewrite app_nil_r. reflexivity.
  - rewrite forM_cons_run, IH, processRule_executed. cbn [List.filter].
    destruct (evaluateRule rule campaignData).1.
    + rewrite <- (assoc_L (++)). reflexivity.
    + rewrite app_nil_r. reflexivity.
Qed.

(** X6: a pass calls the executor once for each selected rule whose
    conditions are met, in the order of the rules, with the campaign's id
    and the rule's action type and parameters, and for no other rule. *)
Theorem processCampaignRules_calls_executor
    (campaignData : CampaignWithInsights.t) (st : Engine) :
  executed (processCampaignRules campaignData st).2
  = executed st
    ++ (call_of campaignData
        <$> List.filter
              (fun rule => (evaluateRule rule campaignData).1)
              (List.filter
                 (selected
                    (Campaign.id (CampaignWithInsights.campaign campaignData)))
                 (rules st))).
Proof.
  rewrite processCampaignRules_run, getRulesForCampaign_run. cbn [fst].
  apply pass_executed.
Qed.

Lemma pass_forget campaignData (selection : list AutomationRule.t) :
  forall st,
    forget_lastTriggered
    <$> rules (forM_ selection (processRule campaignData) st).2
    = forget_lastTriggered <$> rules st.
Proof.
  induction selection as [| rule selection IH]; intros st; [reflexivity |].
  rewrite forM_cons_run, IH. apply processRule_forget.
Qed.

Lemma pass_untriggered campaignData (selection : list AutomationRule.t) :
  forall st,
    (forall rule, rule ∈ selection ->
                  (evaluateRule rule campaignData).1 = false) ->
    rules (forM_ selection (processRule campaignData) st).2 = rules st.
Proof.
  induction selection as [| rule selection IH]; intros st Hall;
    [reflexivity |].
  rewrite forM_cons_run, IH.
  - apply processRule_untriggered. apply Hall, list_elem_of_here.
  - intros r Hr. apply Hall, list_elem_of_further, Hr.
Qed.

(** X7: a pass changes nothing of the stored rules but [lastTriggered]:
    the rules are the same, in the same order, once that field is
    forgotten; and when no selected rule has its conditions met, the rule
    store is left exactly as it was. *)
Theorem processCampaignRules_only_stamps
    (campaignData : CampaignWithInsights.t) (st : Engine) :
  forget_lastTriggered <$> rules (processCampaignRules campaignData st).2
  = forget_lastTriggered <$> rules st
  /\ ((forall rule,
         rule ∈ rules st ->
         selected (Campaign.id (CampaignWithInsights.campaign campaignData))
                  rule = true ->
         (evaluateRule rule campaignData).1 = false) ->
      rules (processCampaignRules campaignData st).2 = rules st).
Proof.
  rewrite processCampaignRules_run, getRulesForCampaign_run. cbn [fst].
  split; [apply pass_forget |].
  intros Hnone. apply pass_untriggered. intros rule Hin.
  apply list_elem_of_In, filter_In in Hin. destruct Hin as [Hin Hsel].
  apply Hnone; [apply list_elem_of_In, Hin | exact Hsel].
Qed.

(** *** Batches of campaigns *)

Lemma forM_app_run {A : Type} (body : A -> M unit) (l1 l2 : list A) :
  forall st, forM_ (l1 ++ l2) body st = forM_ l2 body (forM_ l1 body st).2.
Proof.
  induction l1 as [| a l1 IH]; intros st; [reflexivity |].
  cbn [app]. rewrite !forM_cons_run. apply IH.
Qed.

(** X8: in a batch, a campaign whose data cannot be fetched is skipped
    without any effect: the batch does what it does without that
    campaign. *)
Theorem processAllRules_skips_failed_campaign
    (earlier later : list string) (campaignId : string) (error : Thrown)
    (st : Engine) :
  getCampaign campaignId = Rejected error ->
  processAllRules (earlier ++ campaignId :: later) st
  = processAllRules (earlier ++ later) st.
Proof.
  intros Hfail. unfold processAllRules.
  rewrite !forM_app_run, forM_cons_run.
  unfold processCampaign at 2. rewrite Hfail. reflexivity.
Qed.

End PassFacts.

(** ** Comparisons, conditions and metrics *)

Section EvaluationFacts.

Context `{env : Environment}.

Lemma sub_nan (a t : number) :
  JsNumber.isNaN a || JsNumber.isNaN t = true ->
  JsNumber.sub a t = JsNumber.NaN.
Proof. destruct a, t; cbn; intros Hn; try discriminate; reflexivity. Qed.

Lemma SFltb_nan (a t : number) :
  JsNumber.isNaN a || JsNumber.isNaN t = true -> SFltb a t = false.
Proof. destruct a, t; cbn; intros Hn; try discriminate; reflexivity. Qed.

Lemma SFleb_nan (a t : number) :
  JsNumber.isNaN a || JsNumber.isNaN t = true -> SFleb a t = false.
Proof. destruct a, t; cbn; intros Hn; try discriminate; reflexivity. Qed.

(** X9: with [NaN] as the actual value or as the threshold every comparison
    is false, [!=] included; and a comparison under a string that is none
    of the six operators is false for all values. *)
Theorem compareValues_false_on_NaN_and_unknown_operator
    (a t : number) (operator : string) :
  (JsNumber.isNaN a || JsNumber.isNaN t = true ->
   compareValues a operator t = false)
  /\ (operator ∉ [">"; "<"; ">="; "<="; "="; "!="] ->
      compareValues a operator t = false).
Proof.
  split.
  - intros Hn.
    assert (Hn' : JsNumber.isNaN t || JsNumber.isNaN a = true)
      by (rewrite orb_comm; exact Hn).
    unfold compareValues, JsNumber.gt, JsNumber.lt, JsNumber.ge, JsNumber.le.
    rewrite (sub_nan _ _ Hn).
    rewrite (SFltb_nan _ _ Hn), (SFltb_nan _ _ Hn'),
            (SFleb_nan _ _ Hn), (SFleb_nan _ _ Hn').
    repeat match goal with
           | |- context [String.eqb operator ?s] =>
               destruct (String.eqb operator s)
           end; reflexivity.
  - intros Hop. unfold compareValues.
    repeat match goal with
           | |- context [String.eqb operator ?s] =>
               destruct (String.eqb_spec operator s) as [-> | _];
               [exfalso; apply Hop; set_solver |]
           end.
    reflexivity.
Qed.

(** X10: on two numbers, [<=] is the negation of [>] and [>=] the negation
    of [<]. *)
Theorem compareValues_order_complements (a t : number) :
  JsNumber.isNaN a = false ->
  JsNumber.isNaN t = false ->
  compareValues a "<=" t = negb (compareValues a ">" t)
  /\ compareValues a ">=" t = negb (compareValues a "<" t).
Proof.
  intros Ha Ht.
  change (compareValues a "<=" t) with (JsNumber.ge t a).
  change (compareValues a ">" t) with (JsNumber.lt t a).
  change (compareValues a ">=" t) with (JsNumber.ge a t).
  change (compareValues a "<" t) with (JsNumber.lt a t).
  split; apply ge_negb_lt; assumption.
Qed.

(** X11: when the campaign has no insights, a condition on any of the
    eight raw fields compares 0 with its threshold, whatever the parsers
    are, and writes no warning. *)
Theorem evaluateCondition_raw_without_insights
    (condition : RuleCondition.t) (campaignData : CampaignWithInsights.t) :
  RuleCondition.field condition ∈ raw_fields ->
  CampaignWithInsights.insights campaignData = None ->
  evaluateCondition condition campaignData
  = (compareValues JsNumber.zero (RuleCondition.operator condition)
                   (RuleCondition.value condition), []).
Proof.
  intros Hfield Hnone. unfold evaluateCondition, switch_field, raw.
  rewrite Hnone. unfold raw_fields in Hfield.
  repeat (apply elem_of_cons in Hfield;
          destruct Hfield as [-> | Hfield]; [reflexivity |]).
  apply elem_of_nil in Hfield. destruct Hfield.
Qed.

Lemma fold_combine_const campaignData (b : bool)
    (rest : list RuleCondition.t) :
  (forall c, c ∈ rest -> (evaluateCondition c campaignData).1 = b) ->
  foldl (combine campaignData) b rest = b.
Proof.
  induction rest as [| next rest IH]; intros Hall; [reflexivity |].
  cbn [foldl]. unfold combine at 2.
  rewrite (Hall next) by apply list_elem_of_here.
  rewrite orb_diag, andb_diag.
  destruct (is_OR next); apply IH; intros c Hc;
    apply Hall, list_elem_of_further, Hc.
Qed.

(** X12: whatever the logical operators, a rule none of whose conditions
    holds is not triggered (so is a rule without conditions), and a rule
    with conditions that all hold is triggered. *)
Theorem evaluateRule_unanimous
    (rule : AutomationRule.t) (campaignData : CampaignWithInsights.t) :
  ((forall c, c ∈ AutomationRule.conditions rule ->
              (evaluateCondition c campaignData).1 = false) ->
   (evaluateRule rule campaignData).1 = false)
  /\ (AutomationRule.conditions rule <> [] ->
      (forall c, c ∈ AutomationRule.conditions rule ->
                 (evaluateCondition c campaignData).1 = true) ->
      (evaluateRule rule campaignData).1 = true).
Proof.
  split.
  - intros Hall.
    destruct (AutomationRule.conditions rule) as [| first rest] eqn:Hc.
    + unfold evaluateRule. rewrite Hc. reflexivity.
    + rewrite (evaluateRule_fold _ _ _ _ Hc).
      rewrite (Hall first) by apply list_elem_of_here.
      apply fold_combine_const. intros c Hin.
      apply Hall, list_elem_of_further, Hin.
  - intros Hne Hall.
    destruct (AutomationRule.conditions rule) as [| first rest] eqn:Hc;
      [contradiction |].
    rewrite (evaluateRule_fold _ _ _ _ Hc).
    rewrite (Hall first) by apply list_elem_of_here.
    apply fold_combine_const. intros c Hin.
    apply Hall, list_elem_of_further, Hin.
Qed.

Lemma find_first_checkout (before : list Action.t) (action : Action.t)
    (after : list Action.t) :
  Forall (fun a => is_checkout a = false) before ->
  is_checkout action = true ->
  List.find is_checkout (before ++ action :: after) = Some action.
Proof.
  intros Hbefore Haction.
  induction Hbefore as [| a before Ha _ IH]; cbn [app List.find].
  - rewrite Haction. reflexivity.
  - rewrite Ha. exact IH.
Qed.

Lemma find_no_checkout (actions : list Action.t) :
  Forall (fun a => is_checkout a = false) actions ->
  List.find is_checkout actions = None.
Proof.
  intros Hall. induction Hall as [| a actions Ha _ IH]; [reflexivity |].
  cbn [List.find]. rewrite Ha. exact IH.
Qed.

(** X13: [calculateMetrics] counts the conversions of the first action
    whose type is one of the three checkout types and of no other action:
    the actions before it, which are of other types, and all the actions
    after it, checkout or not, do not change any metric. *)
Theorem calculateMetrics_first_checkout_wins
    (spend clicks impressions ctr cpc cpm reach frequency : string)
    (date_start date_stop : string)
    (before : list Action.t) (action : Action.t) (after : list Action.t) :
  Forall (fun a => is_checkout a = false) before ->
  is_checkout action = true ->
  calculateMetrics
    (Some (CampaignInsights.mk spend (Some (before ++ action :: after))
             clicks impressions ctr cpc cpm reach frequency
             date_start date_stop))
  = calculateMetrics
      (Some (CampaignInsights.mk spend (Some [action])
               clicks impressions ctr cpc cpm reach frequency
               date_start date_stop)).
Proof.
  intros Hbefore Haction. unfold calculateMetrics.
  cbn [CampaignInsights.actions CampaignInsights.spend
       CampaignInsights.clicks].
  rewrite (find_first_checkout _ _ _ Hbefore Haction).
  cbn [List.find]. rewrite Haction. reflexivity.
Qed.

(** X14: without an action of a checkout type (or without actions at all)
    the conversions are 0: [costPerAction] is [null] whatever the spend,
    and so a condition on [costPerAction] is false. *)
Theorem calculateMetrics_without_checkout
    (insights : CampaignInsights.t) :
  match CampaignInsights.actions insights with
  | Some actions => Forall (fun a => is_checkout a = false) actions
  | None => True
  end ->
  CalculatedMetrics.costPerAction (calculateMetrics (Some insights)) = None
  /\ (forall condition campaign lastUpdated,
        RuleCondition.field condition = "costPerAction" ->
        (evaluateCondition condition
           (CampaignWithInsights.mk campaign (Some insights)
              (calculateMetrics (Some insights)) lastUpdated)).1 = false).
Proof.
  intros Hno.
  assert (Hcpa : CalculatedMetrics.costPerAction
                   (calculateMetrics (Some insights)) = None).
  { unfold calculateMetrics. cbn [CalculatedMetrics.costPerAction].
    destruct (CampaignInsights.actions insights) as [actions |].
    - rewrite (find_no_checkout _ Hno). reflexivity.
    - reflexivity. }
  split; [exact Hcpa |].
  intros condition campaign lastUpdated Hf.
  unfold evaluateCondition. rewrite Hf. unfold switch_field.
  cbn [String.eqb Ascii.eqb Bool.eqb CampaignWithInsights.calculatedMetrics].
  rewrite Hcpa. reflexivity.
Qed.

End EvaluationFacts.

(** ** Reading the logs *)

Section QueryFacts.

Context `{cal : Calendar}.

Lemma insert_newest_first_Permutation log (sorted : list AutomationLog.t) :
  insert_newest_first log sorted ≡ₚ log :: sorted.
Proof.
  induction sorted as [| other rest IH]; [reflexivity |].
  cbn [insert_newest_first].
  destruct (time_of log <? time_of other)%Z; [| reflexivity].
  rewrite IH. apply Permutation_swap.
Qed.

Lemma sort_newest_first_Permutation (arr : list AutomationLog.t) :
  sort_newest_first arr ≡ₚ arr.
Proof.
  induction arr as [| log arr IH]; [reflexivity |].
  cbn [sort_newest_first foldr].
  rewrite insert_newest_first_Permutation. f_equiv. exact IH.
Qed.

Lemma insert_newest_first_sorted log (sorted : list AutomationLog.t) :
  StronglySorted not_older sorted ->
  StronglySorted not_older (insert_newest_first log sorted).
Proof.
  induction 1 as [| other rest Hrest IH Hall]; cbn [insert_newest_first].
  - repeat constructor.
  - destruct (Z.ltb_spec (time_of log) (time_of other)) as [Hlt | Hge].
    + constructor; [exact IH |].
      rewrite insert_newest_first_Permutation.
      constructor; [unfold not_older; lia | exact Hall].
    + constructor; [constructor; assumption |].
      constructor; [exact Hge |].
      eapply Forall_impl; [exact Hall |].
      intros z Hz. unfold not_older in *. lia.
Qed.

Lemma sort_newest_first_sorted (arr : list AutomationLog.t) :
  StronglySorted not_older (sort_newest_first arr).
Proof.
  induction arr as [| log arr IH]; [constructor |].
  apply insert_newest_first_sorted, IH.
Qed.

Lemma insert_at_time (t : Z) log (sorted : list AutomationLog.t) :
  at_time t (insert_newest_first log sorted) = at_time t (log :: sorted).
Proof.
  unfold at_time.
  induction sorted as [| other rest IH]; [reflexivity |].
  cbn [insert_newest_first].
  destruct (Z.ltb_spec (time_of log) (time_of other)) as [Hlt | Hge];
    [| reflexivity].
  cbn [List.filter] in *. rewrite IH.
  destruct (Z.eqb_spec (time_of log) t) as [Hlog | Hlog];
    destruct (Z.eqb_spec (time_of other) t) as [Hother | Hother];
    try reflexivity.
  lia.
Qed.

Lemma sort_at_time (t : Z) (arr : list AutomationLog.t) :
  at_time t (sort_newest_first arr) = at_time t arr.
Proof.
  induction arr as [| log arr IH]; [reflexivity |].
  cbn [sort_newest_first foldr]. rewrite insert_at_time.
  unfold at_time in *. cbn [List.filter]. fold (sort_newest_first arr).
  rewrite IH. reflexivity.
Qed.

Lemma sort_of_sorted (arr : list AutomationLog.t) :
  StronglySorted not_older arr -> sort_newest_first arr = arr.
Proof.
  induction 1 as [| log rest Hrest IH Hall]; [reflexivity |].
  cbn [sort_newest_first foldr]. fold (sort_newest_first rest). rewrite IH.
  destruct rest as [| other rest]; [reflexivity |].
  cbn [insert_newest_first].
  apply Forall_cons in Hall. destruct Hall as [Hother _].
  destruct (Z.ltb_spec (time_of log) (time_of other)) as [Hlt | Hge];
    [unfold not_older in Hother; lia | reflexivity].
Qed.

Lemma slice_to_take {A : Type} (limit : Z) (arr : list A) :
  exists k, slice_to limit arr = take k arr.
Proof. unfold slice_to. destruct (limit <? 0)%Z; eexists; reflexivity. Qed.

Lemma slice_to_length {A : Type} (limit : Z) (arr : list A) :
  (0 <= limit)%Z ->
  length (slice_to limit arr) = Nat.min (Z.to_nat limit) (length arr).
Proof.
  intros Hpos. unfold slice_to.
  destruct (Z.ltb_spec limit 0) as [Hneg | _]; [lia |].
  apply length_take.
Qed.

Lemma take_sorted (k : nat) (arr : list AutomationLog.t) :
  StronglySorted not_older arr -> StronglySorted not_older (take k arr).
Proof.
  intros Hsorted. rewrite <- (take_drop k arr) in Hsorted.
  apply StronglySorted_app_1_l in Hsorted. exact Hsorted.
Qed.

(** X15: [getLogs] returns the first [limit] entries of the logs sorted by
    decreasing time, entries of equal time in their stored order, and it
    sorts the store itself: the store holds the same entries afterwards,
    in that order. *)
Theorem getLogs_sorts_the_store (limit : Z) (st : Engine) :
  let sorted := logs (getLogs limit st).2 in
  (getLogs limit st).1 = slice_to limit sorted
  /\ sorted ≡ₚ logs st
  /\ StronglySorted not_older sorted
  /\ (forall t, at_time t sorted = at_time t (logs st))
  /\ rules (getLogs limit st).2 = rules st
  /\ ((0 <= limit)%Z ->
      length (getLogs limit st).1
      = Nat.min (Z.to_nat limit) (length (logs st))).
Proof.
  unfold getLogs, bind, get, set_logs, ret. cbn [fst snd logs rules].
  split; [reflexivity | split; [| split; [| split; [| split]]]].
  - apply sort_newest_first_Permutation.
  - apply sort_newest_first_sorted.
  - intros t. apply sort_at_time.
  - reflexivity.
  - intros Hpos. rewrite (slice_to_length _ _ Hpos).
    rewrite (Permutation_length (sort_newest_first_Permutation (logs st))).
    reflexivity.
Qed.

(** X16: reading the logs a second time changes nothing any more, and a
    second read with the same limit returns the same entries. *)
Theorem getLogs_twice (limit limit' : Z) (st : Engine) :
  (getLogs limit' (getLogs limit st).2).2 = (getLogs limit st).2
  /\ (getLogs limit (getLogs limit st).2).1 = (getLogs limit st).1.
Proof.
  unfold getLogs, bind, get, set_logs, ret.
  cbn [fst snd rules logs warnings executed uuid_draws date_reads].
  rewrite (sort_of_sorted _ (sort_newest_first_sorted (logs st))).
  split; reflexivity.
Qed.

Lemma sorted_head_newest (newest : AutomationLog.t)
    (rest arr : list AutomationLog.t) :
  StronglySorted not_older (newest :: rest) ->
  newest :: rest ≡ₚ arr ->
  forall log, log ∈ arr -> (time_of log <= time_of newest)%Z.
Proof.
  intros Hsorted Hperm log Hin. rewrite <- Hperm in Hin.
  apply StronglySorted_inv in Hsorted. destruct Hsorted as [_ Hall].
  apply elem_of_cons in Hin. destruct Hin as [-> | Hin]; [lia |].
  rewrite Forall_forall in Hall. apply (Hall log Hin).
Qed.

(** X17: once [getLogs] has been called on a full store, the next entry
    that is pushed evicts the entry at the head of the sorted store, which
    is an entry of the greatest time: the newest one, not the oldest. *)
Theorem push_after_getLogs_evicts_newest
    (limit : Z) (entry : AutomationLog.t) (st : Engine) :
  length (logs st) = 1000 ->
  exists newest rest,
    logs (getLogs limit st).2 = newest :: rest
    /\ (forall log, log ∈ logs st -> (time_of log <= time_of newest)%Z)
    /\ logs (pushLog entry (getLogs limit st).2).2 = rest ++ [entry].
Proof.
  intros Hfull.
  pose proof (sort_newest_first_Permutation (logs st)) as Hperm.
  pose proof (sort_newest_first_sorted (logs st)) as Hsorted.
  assert (Hlen : length (sort_newest_first (logs st)) = 1000)
    by (rewrite (Permutation_length Hperm); exact Hfull).
  unfold getLogs, bind, get, set_logs, ret. cbn [snd logs].
  destruct (sort_newest_first (logs st)) as [| newest rest] eqn:Hsort;
    [discriminate Hlen |].
  exists newest, rest. split; [reflexivity | split].
  - apply (sorted_head_newest newest rest); assumption.
  - rewrite pushLog_run. cbn [snd logs]. unfold slice_last.
    rewrite length_app. cbn [length] in *.
    replace (S (length rest) + 1 - 1000) with 1 by lia. reflexivity.
Qed.

(** X18: [getLogsForCampaign] leaves the store untouched and returns
    entries of the store that all belong to the campaign, sorted by
    decreasing time; for a limit that is not negative they are
    min(limit, n) of the n entries of the campaign. *)
Theorem getLogsForCampaign_reads
    (campaignId : string) (limit : Z) (st : Engine) :
  (getLogsForCampaign campaignId limit st).2 = st
  /\ Forall (fun log => AutomationLog.campaignId log = campaignId
                        /\ log ∈ logs st)
            (getLogsForCampaign campaignId limit st).1
  /\ StronglySorted not_older (getLogsForCampaign campaignId limit st).1
  /\ ((0 <= limit)%Z ->
      length (getLogsForCampaign campaignId limit st).1
      = Nat.min (Z.to_nat limit)
          (length (List.filter (of_campaign campaignId) (logs st)))).
Proof.
  unfold getLogsForCampaign, bind, get, ret. cbn [fst snd].
  set (mine := List.filter (of_campaign campaignId) (logs st)).
  pose proof (sort_newest_first_Permutation mine) as Hperm.
  destruct (slice_to_take limit (sort_newest_first mine)) as [k Hk].
  split; [reflexivity | split; [| split]].
  - rewrite Hk. apply Forall_take. rewrite Hperm.
    apply Forall_forall. intros log Hin. subst mine.
    apply list_elem_of_In, filter_In in Hin. destruct Hin as [Hin Hc].
    split; [apply String.eqb_eq, Hc | apply list_elem_of_In, Hin].
  - rewrite Hk. apply take_sorted, sort_newest_first_sorted.
  - intros Hpos. rewrite (slice_to_length _ _ Hpos).
    rewrite (Permutation_length Hperm). reflexivity.
Qed.

Lemma length_List_filter {A : Type} (p : A -> bool) (l : list A) :
  length (List.filter p l) <= length l.
Proof.
  induction l as [| a l IH]; [reflexivity |].
  cbn [List.filter]. destruct (p a); cbn [length]; lia.
Qed.

(** X19: [getStats] changes nothing; the active rules are counted among
    the rules, the triggered and the recent entries among the log entries,
    and with an empty log store the success rate is 0, not the [NaN] of
    0/0. *)
Theorem getStats_counts (st : Engine) :
  (getStats st).2 = st
  /\ Stats.totalRules (getStats st).1 = length (rules st)
  /\ Stats.totalLogs (getStats st).1 = length (logs st)
  /\ Stats.activeRules (getStats st).1 <= Stats.totalRules (getStats st).1
  /\ Stats.triggeredActions (getStats st).1 <= Stats.totalLogs (getStats st).1
  /\ Stats.recentLogs (getStats st).1 <= Stats.totalLogs (getStats st).1
  /\ (logs st = [] -> Stats.successRate (getStats st).1 = JsNumber.zero).
Proof.
  unfold getStats, bind, get, ret.
  cbn [fst snd Stats.totalRules Stats.totalLogs Stats.activeRules
       Stats.triggeredActions Stats.recentLogs Stats.successRate].
  split; [reflexivity | split; [reflexivity | split; [reflexivity |]]].
  split; [apply length_List_filter |].
  split; [apply length_List_filter |].
  split.
  - unfold count_recent.
    etransitivity; [apply length_List_filter |].
    rewrite length_imap. reflexivity.
  - intros ->. reflexivity.
Qed.

End QueryFacts.

(** ** The rule-management handlers *)

Section HandlerFacts.

Context `{env : Environment}.

Lemma falsy_Some (s : string) : s <> "" -> falsy (Some s) = false.
Proof. intros Hs. apply String.eqb_neq, Hs. Qed.

(** X20: a creation request with a name, a campaign id, an action type and
    at least one condition is answered with status 201 and the rule that
    was stored: a rule appended to the store, active, never triggered, with
    the fields of the request, the empty description when none was given,
    and the conditions of the request in their order. *)
Theorem POST_creates
    (body : CreateRuleForm.t) (name campaignId actionType : string)
    (first : ConditionForm.t) (others : list ConditionForm.t) (st : Engine) :
  CreateRuleForm.name body = Some name -> name <> "" ->
  CreateRuleForm.campaignId body = Some campaignId -> campaignId <> "" ->
  CreateRuleForm.actionType body = Some actionType -> actionType <> "" ->
  CreateRuleForm.conditions body
  = CreateRuleForm.ConditionArray (first :: others) ->
  exists newRule,
    (POST (Resolved body) st).1
    = Response.ok 201 newRule "Automation rule created successfully"
    /\ rules (POST (Resolved body) st).2 = rules st ++ [newRule]
    /\ logs (POST (Resolved body) st).2 = logs st
    /\ AutomationRule.name newRule = name
    /\ AutomationRule.campaignId newRule = campaignId
    /\ AutomationRule.action newRule
       = RuleAction.mk actionType (CreateRuleForm.actionParameters body)
    /\ AutomationRule.isActive newRule = true
    /\ AutomationRule.lastTriggered newRule = None
    /\ AutomationRule.description newRule
       = Some (orElse (CreateRuleForm.description body) "")
    /\ strip <$> AutomationRule.conditions newRule = first :: others.
Proof.
  intros Hname Hn Hcampaign Hc Haction Ha Hconditions.
  unfold POST. rewrite Hname, Hcampaign, Haction, Hconditions.
  rewrite !falsy_Some by assumption.
  cbn [CreateRuleForm.conditions_falsy CreateRuleForm.isArray
       CreateRuleForm.elements orb negb length Nat.eqb default].
  unfold bind. rewrite addRule_exact. cbv zeta. unfold ret.
  cbn [fst snd rules logs AutomationRule.name AutomationRule.campaignId
       AutomationRule.action AutomationRule.isActive
       AutomationRule.lastTriggered AutomationRule.description
       AutomationRule.conditions RuleForm.name RuleForm.campaignId
       RuleForm.action RuleForm.isActive RuleForm.lastTriggered
       RuleForm.description RuleForm.conditions].
  eexists. repeat split. apply strip_imap.
Qed.

(** X21: a creation request without a name, a campaign id or an action
    type (missing or empty), or whose conditions are no array, is answered
    with status 400 and no payload, and leaves the whole state as it is. *)
Theorem POST_rejects_incomplete (body : CreateRuleForm.t) (st : Engine) :
  falsy (CreateRuleForm.name body)
  || falsy (CreateRuleForm.campaignId body)
  || falsy (CreateRuleForm.actionType body)
  || negb (CreateRuleForm.isArray (CreateRuleForm.conditions body)) = true ->
  Response.status (POST (Resolved body) st).1 = 400
  /\ Response.success (POST (Resolved body) st).1 = false
  /\ Response.data (POST (Resolved body) st).1 = None
  /\ (POST (Resolved body) st).2 = st.
Proof.
  intros Hbad. unfold POST.
  destruct (falsy (CreateRuleForm.name body)
            || falsy (CreateRuleForm.campaignId body)
            || CreateRuleForm.conditions_falsy (CreateRuleForm.conditions body)
            || falsy (CreateRuleForm.actionType body)) eqn:Hmissing;
    [repeat split |].
  apply orb_false_elim in Hmissing. destruct Hmissing as [Hmissing Ht].
  apply orb_false_elim in Hmissing. destruct Hmissing as [Hmissing _].
  apply orb_false_elim in Hmissing. destruct Hmissing as [Hn Hc].
  rewrite Hn, Hc, Ht in Hbad. cbn [orb] in Hbad. rewrite Hbad.
  repeat split.
Qed.

(** X22: the deletion handler answers 400 without a rule id, 404 when no
    stored rule has the id, and both leave the state as it is; otherwise it
    answers 200 and the first rule with the id is gone, the other rules and
    all the logs being kept. *)
Theorem DELETE_outcomes (ruleId : option string) (st : Engine) :
  (falsy ruleId = true ->
   Response.status (DELETE ruleId st).1 = 400
   /\ (DELETE ruleId st).2 = st)
  /\ (forall id,
        ruleId = Some id -> id <> "" ->
        (forall rule, rule ∈ rules st -> AutomationRule.id rule <> id) ->
        Response.status (DELETE ruleId st).1 = 404
        /\ (DELETE ruleId st).2 = st)
  /\ (forall id before rule after,
        ruleId = Some id -> id <> "" ->
        rules st = before ++ rule :: after ->
        AutomationRule.id rule = id ->
        (forall r, r ∈ before -> AutomationRule.id r <> id) ->
        Response.status (DELETE ruleId st).1 = 200
        /\ rules (DELETE ruleId st).2 = before ++ after
        /\ logs (DELETE ruleId st).2 = logs st).
Proof.
  split; [| split].
  - intros Hfalsy. unfold DELETE. rewrite Hfalsy. split; reflexivity.
  - intros id -> Hid Hnone. unfold DELETE.
    rewrite (falsy_Some _ Hid). unfold bind.
    change (default "" (Some id)) with id.
    rewrite (deleteRule_absent _ _ Hnone). split; reflexivity.
  - intros id before rule after -> Hid Hrules Hrule Hbefore. unfold DELETE.
    rewrite (falsy_Some _ Hid). unfold bind.
    change (default "" (Some id)) with id.
    rewrite (deleteRule_present _ _ _ _ _ Hrules Hrule Hbefore).
    repeat split.
Qed.

Lemma updateRule_absent (ruleId : string) (updates : PartialRule.t) st :
  (forall rule, rule ∈ rules st -> AutomationRule.id rule <> ruleId) ->
  updateRule ruleId updates st = (None, st).
Proof.
  intros Hnone. unfold updateRule, bind, get, findIndex.
  rewrite findIndex_from_none; [reflexivity |].
  intros rule Hin. apply has_id_false, Hnone, Hin.
Qed.

Lemma updateRule_present (ruleId : string) (updates : PartialRule.t) st
    before rule after :
  rules st = before ++ rule :: after ->
  AutomationRule.id rule = ruleId ->
  (forall r, r ∈ before -> AutomationRule.id r <> ruleId) ->
  updateRule ruleId updates st
  = (Some (merge rule updates (toISOString (date_reads st))),
     mkEngine
       (before ++ merge rule updates (toISOString (date_reads st)) :: after)
       (logs st) (warnings st) (executed st)
       (uuid_draws st) (S (date_reads st))).
Proof.
  intros Hrules Hid Hbefore.
  unfold updateRule, bind, get, findIndex. rewrite Hrules.
  rewrite findIndex_from_first by (auto using has_id_true, has_id_false).
  rewrite Z.add_0_l, found_not_minus_one, Nat2Z.id.
  rewrite list_lookup_middle by reflexivity.
  unfold new_Date, set_rules, ret.
  cbn [rules logs warnings executed uuid_draws date_reads].
  rewrite insert_middle. reflexivity.
Qed.

(** X23: the update handler answers 400 without a rule id and 404 when no
    stored rule has the id, leaving the state as it is; otherwise it
    answers 200 with the merged rule, which takes the place of the first
    rule with the id, and the number of stored rules and the logs do not
    change. *)
Theorem PUT_outcomes (body : UpdateRuleBody.t) (st : Engine) :
  (falsy (UpdateRuleBody.ruleId body) = true ->
   Response.status (PUT (Resolved body) st).1 = 400
   /\ (PUT (Resolved body) st).2 = st)
  /\ (forall id,
        UpdateRuleBody.ruleId body = Some id -> id <> "" ->
        (forall rule, rule ∈ rules st -> AutomationRule.id rule <> id) ->
        Response.status (PUT (Resolved body) st).1 = 404
        /\ (PUT (Resolved body) st).2 = st)
  /\ (forall id before rule after,
        UpdateRuleBody.ruleId body = Some id -> id <> "" ->
        rules st = before ++ rule :: after ->
        AutomationRule.id rule = id ->
        (forall r, r ∈ before -> AutomationRule.id r <> id) ->
        let merged :=
          merge rule (UpdateRuleBody.updates body)
                (toISOString (date_reads st)) in
        (PUT (Resolved body) st).1
        = Response.ok 200 merged "Automation rule updated successfully"
        /\ rules (PUT (Resolved body) st).2 = before ++ merged :: after
        /\ length (rules (PUT (Resolved body) st).2) = length (rules st)
        /\ logs (PUT (Resolved body) st).2 = logs st).
Proof.
  split; [| split].
  - intros Hfalsy. unfold PUT. rewrite Hfalsy. split; reflexivity.
  - intros id Hbody Hid Hnone. unfold PUT. rewrite Hbody.
    rewrite (falsy_Some _ Hid). unfold bind.
    change (default "" (Some id)) with id.
    rewrite (updateRule_absent _ _ _ Hnone). split; reflexivity.
  - intros id before rule after Hbody Hid Hrules Hrule Hbefore merged.
    unfold PUT. rewrite Hbody.
    rewrite (falsy_Some _ Hid). unfold bind.
    change (default "" (Some id)) with id.
    rewrite (updateRule_present _ _ _ _ _ _ Hrules Hrule Hbefore).
    unfold ret. cbn [fst snd rules logs].
    repeat split. rewrite Hrules, !length_app. reflexivity.
Qed.

End HandlerFacts.

(** ** The rule display and the creation form *)

Section FormFacts.

Context `{env : Environment}.

Lemma operator_or_AND_is_OR (next : RuleCondition.t) :
  String.eqb
    (operator_or_AND (Some (RuleCondition.logicalOperator next))) "OR"
  = is_OR next.
Proof.
  unfold operator_or_AND, is_OR.
  destruct (RuleCondition.logicalOperator next) as [op |]; [| reflexivity].
  destruct (String.eqb_spec op "") as [-> | _]; reflexivity.
Qed.

(** X24: the rule display shows, after each condition but the last, the
    operator under which the engine combines the next condition with the
    running result: "OR" there means that the engine folds the next
    condition with OR, anything else that it folds with AND; nothing is
    shown after the last condition. *)
Theorem formatConditions_shows_the_fold
    (conditions : list RuleCondition.t) (index : nat)
    (condition : RuleCondition.t) :
  conditions !! index = Some condition ->
  length (formatConditions conditions) = length conditions
  /\ (forall next,
        conditions !! (index + 1) = Some next ->
        exists shown,
          Rendered.separator <$> formatConditions conditions !! index
          = Some (Some shown)
          /\ forall campaignData result,
               combine campaignData result next
               = if String.eqb shown "OR"
                 then result || (evaluateCondition next campaignData).1
                 else result && (evaluateCondition next campaignData).1)
  /\ (conditions !! (index + 1) = None ->
      Rendered.separator <$> formatConditions conditions !! index
      = Some None).
Proof.
  intros Hcondition. unfold formatConditions.
  split; [apply length_imap | split].
  - intros next Hnext. rewrite list_lookup_imap, Hcondition, Hnext.
    cbn [fmap option_fmap option_map Rendered.separator].
    apply lookup_lt_Some in Hnext.
    destruct (Nat.eqb_spec index (length conditions - 1)) as [He | _];
      [lia |].
    eexists. split; [reflexivity |].
    intros campaignData result. unfold combine.
    rewrite operator_or_AND_is_OR. reflexivity.
  - intros Hlast. rewrite list_lookup_imap, Hcondition.
    cbn [fmap option_fmap option_map Rendered.separator].
    apply lookup_ge_None_1 in Hlast. apply lookup_lt_Some in Hcondition.
    destruct (Nat.eqb_spec index (length conditions - 1)) as [_ | Hne];
      [reflexivity | lia].
Qed.

Lemma filter_keeps_all {A : Type} (p : A -> bool) (l : list A) :
  (forall a, a ∈ l -> p a = true) -> List.filter p l = l.
Proof.
  induction l as [| a l IH]; intros Hall; [reflexivity |].
  cbn [List.filter]. rewrite (Hall a) by apply list_elem_of_here.
  f_equal. apply IH. intros b Hb. apply Hall, list_elem_of_further, Hb.
Qed.

Lemma filter_sublist {A : Type} (p : A -> bool) (l : list A) :
  sublist (List.filter p l) l.
Proof.
  induction l as [| a l IH]; [apply sublist_nil |].
  cbn [List.filter].
  destruct (p a); [apply sublist_skip | apply sublist_cons]; exact IH.
Qed.

Lemma remove_unique (tempId : string) (conditions : list FormCondition.t) :
  NoDup (FormCondition.tempId <$> conditions) ->
  tempId ∈ FormCondition.tempId <$> conditions ->
  S (length
       (List.filter
          (fun c => negb (String.eqb (FormCondition.tempId c) tempId))
          conditions))
  = length conditions.
Proof.
  induction conditions as [| c conditions IH]; intros Hnodup Hin.
  - apply elem_of_nil in Hin. destruct Hin.
  - cbn [fmap list_fmap] in Hnodup, Hin.
    apply NoDup_cons in Hnodup. destruct Hnodup as [Hfresh Hnodup].
    cbn [List.filter length].
    destruct (String.eqb_spec (FormCondition.tempId c) tempId) as [He | Hne].
    + cbn [negb]. rewrite filter_keeps_all; [reflexivity |].
      intros other Hother.
      destruct (String.eqb_spec (FormCondition.tempId other) tempId)
        as [Ho | _]; [| reflexivity].
      exfalso. apply Hfresh. rewrite He, <- Ho.
      apply list_elem_of_fmap_2, Hother.
    + cbn [negb length]. f_equal. apply IH; [exact Hnodup |].
      apply elem_of_cons in Hin. destruct Hin as [Hin | Hin];
        [congruence | exact Hin].
Qed.

(** X25: with pairwise distinct [tempId]s, removing a condition from the
    form never empties it: a single condition is kept, and from more
    conditions exactly the one with the given [tempId] goes; the others
    stay in their order, unchanged. *)
Theorem removeCondition_keeps_one
    (tempId : string) (conditions : list FormCondition.t) :
  NoDup (FormCondition.tempId <$> conditions) ->
  conditions <> [] ->
  removeCondition tempId conditions <> []
  /\ (length conditions = 1 -> removeCondition tempId conditions = conditions)
  /\ (1 < length conditions ->
      tempId ∈ FormCondition.tempId <$> conditions ->
      S (length (removeCondition tempId conditions)) = length conditions
      /\ tempId ∉ FormCondition.tempId <$> removeCondition tempId conditions)
  /\ sublist (removeCondition tempId conditions) conditions.
Proof.
  intros Hnodup Hne. unfold removeCondition.
  destruct (Nat.ltb_spec 1 (length conditions)) as [Hmany | Hone].
  - assert (Hgone :
      tempId ∉ FormCondition.tempId
               <$> List.filter
                     (fun c =>
                        negb (String.eqb (FormCondition.tempId c) tempId))
                     conditions).
    { intros Hin. apply list_elem_of_fmap in Hin.
      destruct Hin as (c & Hc & Hin).
      apply list_elem_of_In, filter_In in Hin. destruct Hin as [_ Hkeep].
      rewrite <- Hc, String.eqb_refl in Hkeep. discriminate Hkeep. }
    split; [| split; [lia | split]].
    + destruct (decide (tempId ∈ FormCondition.tempId <$> conditions))
        as [Hin | Hout].
      * pose proof (remove_unique tempId conditions Hnodup Hin) as Hlen.
        intros Hnil. rewrite Hnil in Hlen. cbn [length] in Hlen. lia.
      * rewrite filter_keeps_all; [exact Hne |].
        intros c Hc.
        destruct (String.eqb_spec (FormCondition.tempId c) tempId)
          as [He | _]; [| reflexivity].
        exfalso. apply Hout. rewrite <- He.
        apply list_elem_of_fmap_2, Hc.
    + intros _ Hin. split; [apply remove_unique; assumption | exact Hgone].
    + apply filter_sublist.
  - split; [exact Hne | split; [reflexivity | split; [lia |]]].
    reflexivity.
Qed.

(** X26: with pairwise distinct [tempId]s, the select shown after the
    condition at [index] sets the operator of the condition at [index + 1],
    the one the engine reads when it folds that condition, and changes no
    other condition and no other field. *)
Theorem selectOperator_sets_next
    (index : nat) (op : LogicalOperator)
    (conditions : list FormCondition.t) (next : FormCondition.t) :
  NoDup (FormCondition.tempId <$> conditions) ->
  conditions !! (index + 1) = Some next ->
  selectOperator index op conditions
  = <[index + 1 := FormCondition.set_logicalOperator op next]> conditions
  /\ FormCondition.logicalOperator
     <$> selectOperator index op conditions !! (index + 1)
     = Some (Some op).
Proof.
  intros Hnodup Hnext.
  assert (Heq :
    selectOperator index op conditions
    = <[index + 1 := FormCondition.set_logicalOperator op next]> conditions).
  { unfold selectOperator. rewrite Hnext. apply list_eq. intros j.
    rewrite list_lookup_fmap.
    destruct (decide (j = index + 1)) as [-> | Hj].
    - rewrite list_lookup_insert_eq by (eapply lookup_lt_Some; exact Hnext).
      rewrite Hnext. cbn. rewrite String.eqb_refl. reflexivity.
    - rewrite list_lookup_insert_ne by congruence.
      destruct (conditions !! j) as [c |] eqn:Hc; [| reflexivity].
      cbn.
      destruct (String.eqb_spec (FormCondition.tempId c)
                                (FormCondition.tempId next)) as [He | _];
        [| reflexivity].
      exfalso. apply Hj.
      apply (NoDup_lookup _ j (index + 1) (FormCondition.tempId c) Hnodup).
      + rewrite list_lookup_fmap, Hc. reflexivity.
      + rewrite list_lookup_fmap, Hnext, He. reflexivity. }
  split; [exact Heq |].
  rewrite Heq, list_lookup_insert_eq by (eapply lookup_lt_Some; exact Hnext).
  reflexivity.
Qed.

End FormFacts.

(** ** The scheduler *)

Section SchedulerFacts.

Lemma fresh_consistent : scheduler_consistent Scheduler.fresh.
Proof.
  unfold scheduler_consistent, Scheduler.fresh.
  cbn [Scheduler.next_handle Scheduler.isRunning Scheduler.intervalId
       Scheduler.timers].
  split; [lia | split; [discriminate | split; reflexivity]].
Qed.

Lemma run_consistent (c : Scheduler.call) (s : Scheduler.t) :
  scheduler_consistent s -> scheduler_consistent (Scheduler.run c s).
Proof.
  intros Hs. pose proof Hs as (Hnext & Hon & Hoff).
  destruct c as [minutes |]; cbn [Scheduler.run].
  - unfold Scheduler.start.
    destruct (Scheduler.isRunning s) eqn:Hrun; [exact Hs |].
    destruct (Hoff eq_refl) as [_ Htimers].
    unfold scheduler_consistent.
    cbn [Scheduler.next_handle Scheduler.isRunning Scheduler.intervalId
         Scheduler.timers].
    split; [lia | split; [| discriminate]].
    intros _. eexists _, _.
    split; [reflexivity | split; [lia | split; [lia |]]].
    rewrite Htimers. reflexivity.
  - unfold Scheduler.stop.
    destruct (Scheduler.isRunning s) eqn:Hrun.
    + destruct (Hon eq_refl) as (handle & period & Hid & Hnz & _ & Htimers).
      rewrite Hid, Htimers. cbn [Scheduler.truthy default from_option].
      destruct (Nat.eqb_spec handle 0) as [He | _]; [contradiction |].
      cbn [negb]. unfold scheduler_consistent.
      cbn [Scheduler.next_handle Scheduler.isRunning Scheduler.intervalId
           Scheduler.timers List.filter fst].
      rewrite Nat.eqb_refl. cbn [negb].
      split; [exact Hnext | split; [discriminate | split; reflexivity]].
    + destruct (Hoff eq_refl) as [Hid Htimers].
      rewrite Hid, Htimers. cbn [Scheduler.truthy].
      unfold scheduler_consistent.
      cbn [Scheduler.next_handle Scheduler.isRunning Scheduler.intervalId
           Scheduler.timers].
      split; [exact Hnext | split; [discriminate | split; reflexivity]].
Qed.

Lemma scheduler_after_consistent (calls : list Scheduler.call) :
  scheduler_consistent (scheduler_after calls).
Proof.
  unfold scheduler_after.
  induction calls as [| c calls IH] using rev_ind; [apply fresh_consistent |].
  rewrite foldl_app. cbn [foldl]. apply run_consistent, IH.
Qed.

(** X27: whatever the calls of [start] and [stop] on a fresh scheduler, at
    most one timer of the host is live afterwards: exactly one while the
    scheduler is running, which is the one it holds the handle of, and none
    when it is stopped. A further [start] while it is running changes
    nothing, and a further [stop] leaves it stopped without a timer. *)
Theorem scheduler_has_at_most_one_timer (calls : list Scheduler.call) :
  let s := scheduler_after calls in
  length (Scheduler.timers s) = (if Scheduler.isRunning s then 1 else 0)
  /\ Scheduler.announces_next_run s = Scheduler.isRunning s
  /\ (forall handle period,
        (handle, period) ∈ Scheduler.timers s ->
        Scheduler.intervalId s = Some handle)
  /\ (forall minutes,
        Scheduler.isRunning s = true -> Scheduler.start minutes s = s)
  /\ Scheduler.timers (Scheduler.stop s) = []
  /\ Scheduler.isRunning (Scheduler.stop s) = false.
Proof.
  intros s.
  pose proof (scheduler_after_consistent calls) as Hs. fold s in Hs.
  pose proof (run_consistent Scheduler.Stop s Hs) as (_ & _ & Hstopped).
  destruct Hs as (_ & Hon & Hoff).
  assert (Hstop : Scheduler.isRunning (Scheduler.stop s) = false).
  { unfold Scheduler.stop.
    destruct (Scheduler.truthy (Scheduler.intervalId s)); reflexivity. }
  split; [| split; [| split; [| split; [| split]]]].
  - destruct (Scheduler.isRunning s) eqn:Hrun.
    + destruct (Hon eq_refl) as (h & p & _ & _ & _ & ->). reflexivity.
    + destruct (Hoff eq_refl) as [_ ->]. reflexivity.
  - unfold Scheduler.announces_next_run.
    destruct (Scheduler.isRunning s) eqn:Hrun; [| reflexivity].
    destruct (Hon eq_refl) as (h & p & -> & Hnz & _ & _).
    cbn [Scheduler.truthy andb].
    destruct (Nat.eqb_spec h 0); [contradiction | reflexivity].
  - intros handle period Hin.
    destruct (Scheduler.isRunning s) eqn:Hrun.
    + destruct (Hon eq_refl) as (h & p & Hid & _ & _ & Htimers).
      rewrite Htimers in Hin. apply list_elem_of_singleton in Hin.
      injection Hin as -> ->. exact Hid.
    + destruct (Hoff eq_refl) as [_ Htimers].
      rewrite Htimers in Hin. apply elem_of_nil in Hin. destruct Hin.
  - intros minutes Hrun. unfold Scheduler.start. rewrite Hrun. reflexivity.
  - apply (Hstopped Hstop).
  - exact Hstop.
Qed.

End SchedulerFacts.

(** * The further properties on concrete runs *)

Section FurtherRuns.

Import Sample.
Import Examples.

(** ** The rule store *)

Lemma deleteRule_removes_first_witness :
  deleteRule "r-0" (store [alwaysTrue; orOnSecond])
  = (false, store [alwaysTrue; orOnSecond])
  /\ deleteRule "r-2" (store [alwaysTrue; orOnSecond])
     = (true, store [alwaysTrue]).
Proof.
  destruct (deleteRule_removes_first "r-0" (store [alwaysTrue; orOnSecond]))
    as [Hmissing _].
  destruct (deleteRule_removes_first "r-2" (store [alwaysTrue; orOnSecond]))
    as [_ Hfound].
  split.
  - apply Hmissing. intros rule Hin.
    apply elem_of_cons in Hin. destruct Hin as [-> | Hin]; [discriminate |].
    apply list_elem_of_singleton in Hin. subst rule. discriminate.
  - apply (Hfound [alwaysTrue] orOnSecond [] eq_refl eq_refl).
    intros r Hin. apply list_elem_of_singleton in Hin. subst r. discriminate.
Defined.

Lemma addRule_then_deleteRule_witness :
  rules (deleteRule
           (AutomationRule.id
              (addRule (env := simulatedEnv) form (store [alwaysTrue])).1)
           (addRule (env := simulatedEnv) form (store [alwaysTrue])).2).2
  = [alwaysTrue].
Proof.
  apply (addRule_then_deleteRule (env := simulatedEnv) form
           (store [alwaysTrue])).
  intros rule Hin. apply list_elem_of_singleton in Hin. subst rule.
  discriminate.
Defined.

(** ** Passes *)

Lemma executeAction_resolved_stamps_witness :
  AutomationRule.lastTriggered
  <$> rules (executeAction (env := simulatedEnv) alwaysTrue noInsights
               (store [otherCampaign; alwaysTrue])).2
  = [None; Some "tick-1"].
Proof.
  rewrite (executeAction_resolved_stamps (env := simulatedEnv)
             alwaysTrue noInsights (store [otherCampaign; alwaysTrue])
             (ActionResult.mk true "LOG_EVENT" true)
             [otherCampaign] alwaysTrue [] eq_refl eq_refl eq_refl).
  - reflexivity.
  - intros r Hin. apply list_elem_of_singleton in Hin. subst r. discriminate.
Defined.

Lemma processCampaignRules_logs_each_rule_witness :
  length (logs (store [alwaysTrue; otherCampaign; unknownField])) <= 1000
  /\ exists entries,
       logs (processCampaignRules (env := simulatedEnv) noInsights
               (store [alwaysTrue; otherCampaign; unknownField])).2
       = slice_last 1000
           (logs (store [alwaysTrue; otherCampaign; unknownField]) ++ entries)
       /\ AutomationLog.ruleId <$> entries = ["r-3"; "r-4"].
Proof.
  assert (Hroom :
    length (logs (store [alwaysTrue; otherCampaign; unknownField])) <= 1000)
    by (cbn; lia).
  split; [exact Hroom |].
  destruct (processCampaignRules_logs_each_rule (env := simulatedEnv)
              noInsights (store [alwaysTrue; otherCampaign; unknownField])
              Hroom) as (entries & Hlogs & Hids & _).
  exists entries. split; [exact Hlogs | exact Hids].
Defined.

Lemma processCampaignRules_only_stamps_witness :
  rules (processCampaignRules (env := simulatedEnv) noInsights
           (store [unknownField; otherCampaign])).2
  = [unknownField; otherCampaign].
Proof.
  apply (processCampaignRules_only_stamps (env := simulatedEnv) noInsights
           (store [unknownField; otherCampaign])).
  intros rule Hin Hselected.
  apply elem_of_cons in Hin. destruct Hin as [-> | Hin];
    [vm_compute; reflexivity |].
  apply list_elem_of_singleton in Hin. subst rule.
  vm_compute in Hselected. discriminate Hselected.
Defined.

Lemma processAllRules_skips_failed_campaign_witness :
  getCampaign (Environment := unreachableEnv) "404"
  = Rejected (ErrorObject "Request failed with status code 404")
  /\ processAllRules (env := unreachableEnv)
       (["120225449479650554"] ++ "404" :: ["120225449479650554"])
       (store [alwaysTrue])
     = processAllRules (env := unreachableEnv)
         (["120225449479650554"] ++ ["120225449479650554"])
         (store [alwaysTrue]).
Proof.
  split; [reflexivity |].
  apply (processAllRules_skips_failed_campaign (env := unreachableEnv)
           ["120225449479650554"] ["120225449479650554"] "404"
           (ErrorObject "Request failed with status code 404")).
  reflexivity.
Defined.

(** ** Comparisons, conditions and metrics *)

Lemma compareValues_false_on_NaN_and_unknown_operator_witness :
  compareValues JsNumber.NaN ">=" (JsNumber.of_Z 1) = false
  /\ compareValues (JsNumber.of_Z 2) "==" (JsNumber.of_Z 2) = false.
Proof.
  destruct (compareValues_false_on_NaN_and_unknown_operator
              JsNumber.NaN (JsNumber.of_Z 1) ">=") as [Hnan _].
  destruct (compareValues_false_on_NaN_and_unknown_operator
              (JsNumber.of_Z 2) (JsNumber.of_Z 2) "==") as [_ Hunknown].
  split; [apply Hnan; reflexivity | apply Hunknown].
  intros Hin.
  repeat (apply elem_of_cons in Hin;
          destruct Hin as [Hin | Hin]; [discriminate Hin |]).
  apply elem_of_nil in Hin. exact Hin.
Defined.

Lemma compareValues_order_complements_witness :
  compareValues (JsNumber.of_Z 2) "<=" JsNumber.Infinity
  = negb (compareValues (JsNumber.of_Z 2) ">" JsNumber.Infinity)
  /\ compareValues (JsNumber.of_Z 2) ">=" JsNumber.Infinity
     = negb (compareValues (JsNumber.of_Z 2) "<" JsNumber.Infinity).
Proof.
  apply (compareValues_order_complements (JsNumber.of_Z 2) JsNumber.Infinity);
    reflexivity.
Defined.

Lemma evaluateCondition_raw_without_insights_witness :
  evaluateCondition (env := simulatedEnv) (spendAbove0 None) noInsights
  = (compareValues JsNumber.zero ">" JsNumber.zero, []).
Proof.
  apply (evaluateCondition_raw_without_insights (env := simulatedEnv)
           (spendAbove0 None) noInsights); [| reflexivity].
  apply list_elem_of_here.
Defined.

Lemma evaluateRule_unanimous_witness :
  (evaluateRule (env := simulatedEnv) neverTrue noInsights).1 = false
  /\ (evaluateRule (env := simulatedEnv) orOnSecond
        (CampaignWithInsights.mk campaign (Some clicksOnly)
           (calculateMetrics (env := simulatedEnv) (Some clicksOnly))
           "2024-01-03")).1 = true.
Proof.
  split.
  - apply (evaluateRule_unanimous (env := simulatedEnv) neverTrue noInsights).
    intros c Hin.
    repeat (apply elem_of_cons in Hin;
            destruct Hin as [-> | Hin]; [vm_compute; reflexivity |]).
    apply elem_of_nil in Hin. destruct Hin.
  - apply (evaluateRule_unanimous (env := simulatedEnv) orOnSecond);
      [discriminate |].
    intros c Hin.
    repeat (apply elem_of_cons in Hin;
            destruct Hin as [-> | Hin]; [vm_compute; reflexivity |]).
    apply elem_of_nil in Hin. destruct Hin.
Defined.

Lemma calculateMetrics_first_checkout_wins_witness :
  calculateMetrics (env := simulatedEnv)
    (Some (CampaignInsights.mk "25.50"
             (Some ([linkClick] ++ checkout :: [omniCheckout]))
             "12" "340" "3.5" "2.1" "75" "300" "1.1"
             "2024-01-01" "2024-01-31"))
  = calculateMetrics (env := simulatedEnv)
      (Some (CampaignInsights.mk "25.50" (Some [checkout])
               "12" "340" "3.5" "2.1" "75" "300" "1.1"
               "2024-01-01" "2024-01-31")).
Proof.
  apply (calculateMetrics_first_checkout_wins (env := simulatedEnv)).
  - apply Forall_cons. split; [reflexivity | apply Forall_nil_2].
  - reflexivity.
Defined.

Lemma calculateMetrics_without_checkout_witness :
  CalculatedMetrics.costPerAction
    (calculateMetrics (env := simulatedEnv) (Some clicksOnly)) = None
  /\ (evaluateCondition (env := simulatedEnv)
        (costPerActionBelow (JsNumber.of_Z 5))
        (CampaignWithInsights.mk campaign (Some clicksOnly)
           (calculateMetrics (env := simulatedEnv) (Some clicksOnly))
           "2024-01-03")).1 = false.
Proof.
  destruct (calculateMetrics_without_checkout (env := simulatedEnv) clicksOnly)
    as [Hnone Hfalse].
  - cbn. apply Forall_cons. split; [reflexivity | apply Forall_nil_2].
  - split; [exact Hnone |]. apply Hfalse. reflexivity.
Defined.

(** ** Reading the logs *)

Lemma getLogs_sorts_the_store_witness :
  (0 <= 3)%Z
  /\ length (getLogs (cal := calendar) 3 history).1 = 3
  /\ AutomationLog.id <$> (getLogs (cal := calendar) 3 history).1
     = ["l-2"; "l-3"; "l-1"]
  /\ StronglySorted (not_older (cal := calendar))
       (logs (getLogs (cal := calendar) 3 history).2).
Proof.
  pose proof (getLogs_sorts_the_store (cal := calendar) 3 history) as Hsorts.
  cbv zeta in Hsorts.
  destruct Hsorts as (_ & _ & Hsorted & _ & _ & Hlength).
  split; [lia | split; [| split; [reflexivity | exact Hsorted]]].
  rewrite Hlength by lia. reflexivity.
Defined.

Lemma push_after_getLogs_evicts_newest_witness :
  length (logs full) = 1000
  /\ exists newest rest,
       logs (getLogs (cal := calendar) 50 full).2 = newest :: rest
       /\ (forall log, log ∈ logs full ->
             (time_of (cal := calendar) log
              <= time_of (cal := calendar) newest)%Z)
       /\ logs (pushLog (entry "l-5" "999" true 2000)
                 (getLogs (cal := calendar) 50 full).2).2
          = rest ++ [entry "l-5" "999" true 2000].
Proof.
  assert (Hfull : length (logs full) = 1000) by (vm_compute; reflexivity).
  split; [exact Hfull |].
  exact (push_after_getLogs_evicts_newest (cal := calendar) 50
           (entry "l-5" "999" true 2000) full Hfull).
Defined.

(** C6: the failing input. 1000 entries are appended to an empty store,
    the logs are read once with [getLogs], and one more entry is appended.
    First-in-first-out eviction drops "run 0", the entry appended first,
    and keeps "run 1" to "run 1000". The code drops "run 999", the newest
    entry of the full store, and keeps "run 0": [getLogs] has sorted the
    stored array newest first, and [logExecution] drops from its front. *)
Lemma append_after_getLogs_evicts_newest :
  AutomationLog.reason <$> logs full = runs (seq 0 1000)
  /\ AutomationLog.reason <$> logs readThenLogged
     = runs (rev (seq 0 999) ++ [1000])
  /\ length (logs readThenLogged) = 1000
  /\ AutomationLog.reason <$> logs readThenLogged <> runs (seq 1 1000)
  /\ AutomationLog.reason <$> logs readThenLogged !! 998 = Some "run 0"
  /\ AutomationLog.reason <$> head (logs readThenLogged) = Some "run 998".
Proof.
  assert (Hfull : AutomationLog.reason <$> logs full = runs (seq 0 1000))
    by (vm_compute; reflexivity).
  assert (Hread :
    AutomationLog.reason <$> logs readThenLogged
    = runs (rev (seq 0 999) ++ [1000]))
    by (vm_compute; reflexivity).
  split; [exact Hfull | split; [exact Hread | split; [| split; [| split]]]].
  - vm_compute. reflexivity.
  - rewrite Hread. vm_compute. discriminate.
  - vm_compute. reflexivity.
  - vm_compute. reflexivity.
Qed.

Lemma getLogsForCampaign_reads_witness :
  (0 <= 2)%Z
  /\ length (getLogsForCampaign (cal := calendar) "120225449479650554" 2
               history).1 = 2
  /\ AutomationLog.id
     <$> (getLogsForCampaign (cal := calendar) "120225449479650554" 2
            history).1
     = ["l-3"; "l-1"]
  /\ (getLogsForCampaign (cal := calendar) "120225449479650554" 2
        history).2 = history.
Proof.
  destruct (getLogsForCampaign_reads (cal := calendar) "120225449479650554"
              2 history) as (Hsame & _ & _ & Hlength).
  split; [lia | split; [| split; [reflexivity | exact Hsame]]].
  rewrite Hlength by lia. reflexivity.
Defined.

Lemma getStats_counts_witness :
  logs (store [alwaysTrue]) = []
  /\ Stats.successRate (getStats (cal := calendar) (store [alwaysTrue])).1
     = JsNumber.zero
  /\ Stats.recentLogs (getStats (cal := calendar) history).1
     <= Stats.totalLogs (getStats (cal := calendar) history).1.
Proof.
  destruct (getStats_counts (cal := calendar) (store [alwaysTrue]))
    as (_ & _ & _ & _ & _ & _ & Hzero).
  destruct (getStats_counts (cal := calendar) history)
    as (_ & _ & _ & _ & _ & Hrecent & _).
  split; [reflexivity | split; [exact (Hzero eq_refl) | exact Hrecent]].
Defined.

(** ** The rule-management handlers *)

Lemma POST_creates_witness :
  exists newRule,
    (POST (env := simulatedEnv) (Resolved (creation oneCondition)) initial).1
    = Response.ok 201 newRule "Automation rule created successfully"
    /\ rules (POST (env := simulatedEnv) (Resolved (creation oneCondition))
                   initial).2
       = rules initial ++ [newRule]
    /\ AutomationRule.name newRule = "High spend"
    /\ AutomationRule.isActive newRule = true.
Proof.
  destruct (POST_creates (env := simulatedEnv) (creation oneCondition)
              "High spend" "120225449479650554" "PAUSE_CAMPAIGN"
              (ConditionForm.mk "spend" ">" (JsNumber.of_Z 100) None) []
              initial)
    as (newRule & Hresponse & Hrules & _ & Hname & _ & _ & Hactive & _);
    [reflexivity | discriminate | reflexivity | discriminate
     | reflexivity | discriminate | reflexivity |].
  exists newRule.
  split; [exact Hresponse | split; [exact Hrules | split; assumption]].
Defined.

Lemma POST_rejects_incomplete_witness :
  Response.status (POST (env := simulatedEnv) (Resolved unnamed) created).1
  = 400
  /\ (POST (env := simulatedEnv) (Resolved unnamed) created).2 = created.
Proof.
  destruct (POST_rejects_incomplete (env := simulatedEnv) unnamed created)
    as (Hstatus & _ & _ & Hsame); [reflexivity |].
  split; [exact Hstatus | exact Hsame].
Defined.

Lemma DELETE_outcomes_witness :
  Response.status (DELETE None (store [alwaysTrue])).1 = 400
  /\ Response.status (DELETE (Some "r-0") (store [alwaysTrue])).1 = 404
  /\ Response.status (DELETE (Some "r-3") (store [alwaysTrue])).1 = 200
  /\ rules (DELETE (Some "r-3") (store [alwaysTrue])).2 = [].
Proof.
  destruct (DELETE_outcomes None (store [alwaysTrue])) as (Hmissing & _).
  destruct (DELETE_outcomes (Some "r-0") (store [alwaysTrue]))
    as (_ & Hunknown & _).
  destruct (DELETE_outcomes (Some "r-3") (store [alwaysTrue]))
    as (_ & _ & Hfound).
  split; [apply Hmissing; reflexivity | split].
  - apply (Hunknown "r-0" eq_refl); [discriminate |].
    intros rule Hin. apply list_elem_of_singleton in Hin. subst rule.
    discriminate.
  - destruct (Hfound "r-3" [] alwaysTrue [] eq_refl) as (Hstatus & Hrules & _);
      [discriminate | reflexivity | reflexivity | |].
    + intros r Hin. apply elem_of_nil in Hin. destruct Hin.
    + split; [exact Hstatus | exact Hrules].
Defined.

Lemma PUT_outcomes_witness :
  Response.status
    (PUT (env := simulatedEnv) (Resolved (UpdateRuleBody.mk None pausing))
         (store [alwaysTrue])).1 = 400
  /\ Response.status
       (PUT (env := simulatedEnv)
            (Resolved (UpdateRuleBody.mk (Some "r-0") pausing))
            (store [alwaysTrue])).1 = 404
  /\ AutomationRule.isActive
     <$> rules (PUT (env := simulatedEnv)
                    (Resolved (UpdateRuleBody.mk (Some "r-3") pausing))
                    (store [alwaysTrue])).2
     = [false].
Proof.
  destruct (PUT_outcomes (env := simulatedEnv)
              (UpdateRuleBody.mk None pausing) (store [alwaysTrue]))
    as (Hmissing & _).
  destruct (PUT_outcomes (env := simulatedEnv)
              (UpdateRuleBody.mk (Some "r-0") pausing) (store [alwaysTrue]))
    as (_ & Hunknown & _).
  destruct (PUT_outcomes (env := simulatedEnv)
              (UpdateRuleBody.mk (Some "r-3") pausing) (store [alwaysTrue]))
    as (_ & _ & Hfound).
  split; [apply Hmissing; reflexivity | split].
  - apply (Hunknown "r-0" eq_refl); [discriminate |].
    intros rule Hin. apply list_elem_of_singleton in Hin. subst rule.
    discriminate.
  - destruct (Hfound "r-3" [] alwaysTrue [] eq_refl) as (_ & Hrules & _);
      [discriminate | reflexivity | reflexivity | |].
    + intros r Hin. apply elem_of_nil in Hin. destruct Hin.
    + rewrite Hrules. reflexivity.
Defined.

(** ** The rule display and the creation form *)

Lemma formatConditions_shows_the_fold_witness :
  AutomationRule.conditions orOnSecond !! 0 = Some (spendAtLeast0 None)
  /\ length (formatConditions (AutomationRule.conditions orOnSecond)) = 2
  /\ Rendered.separator
     <$> formatConditions (AutomationRule.conditions orOnSecond) !! 1
     = Some None
  /\ exists shown,
       Rendered.separator
       <$> formatConditions (AutomationRule.conditions orOnSecond) !! 0
       = Some (Some shown)
       /\ forall campaignData result,
            combine (env := simulatedEnv) campaignData result
                    (spendAbove0 (Some "OR"))
            = if String.eqb shown "OR"
              then result
                   || (evaluateCondition (env := simulatedEnv)
                         (spendAbove0 (Some "OR")) campaignData).1
              else result
                   && (evaluateCondition (env := simulatedEnv)
                         (spendAbove0 (Some "OR")) campaignData).1.
Proof.
  destruct (formatConditions_shows_the_fold (env := simulatedEnv)
              (AutomationRule.conditions orOnSecond) 0 (spendAtLeast0 None)
              eq_refl) as (Hlength & Hnext & _).
  destruct (formatConditions_shows_the_fold (env := simulatedEnv)
              (AutomationRule.conditions orOnSecond) 1
              (spendAbove0 (Some "OR")) eq_refl) as (_ & _ & Hlast).
  split; [reflexivity | split; [exact Hlength | split]].
  - exact (Hlast eq_refl).
  - exact (Hnext (spendAbove0 (Some "OR")) eq_refl).
Defined.

Lemma removeCondition_keeps_one_witness :
  NoDup (FormCondition.tempId <$> twoConditions)
  /\ removeCondition "t-1" twoConditions <> []
  /\ S (length (removeCondition "t-1" twoConditions)) = length twoConditions
  /\ removeCondition "t-1" (initialConditions "t-1") = initialConditions "t-1".
Proof.
  assert (Hdistinct : NoDup (FormCondition.tempId <$> twoConditions)).
  { apply NoDup_cons. split; [| apply NoDup_singleton].
    intros Hin. apply list_elem_of_singleton in Hin. discriminate Hin. }
  destruct (removeCondition_keeps_one "t-1" twoConditions Hdistinct)
    as (Hkept & _ & Hremoved & _); [discriminate |].
  destruct (removeCondition_keeps_one "t-1" (initialConditions "t-1"))
    as (_ & Hsingle & _); [apply NoDup_singleton | discriminate |].
  split; [exact Hdistinct | split; [exact Hkept | split]].
  - apply Hremoved; [cbn; lia | apply list_elem_of_here].
  - apply Hsingle. reflexivity.
Defined.

Lemma selectOperator_sets_next_witness :
  NoDup (FormCondition.tempId <$> twoConditions)
  /\ FormCondition.logicalOperator <$> twoConditions !! 1 = Some (Some "AND")
  /\ FormCondition.logicalOperator
     <$> selectOperator 0 "OR" twoConditions !! (0 + 1)
     = Some (Some "OR").
Proof.
  assert (Hdistinct : NoDup (FormCondition.tempId <$> twoConditions)).
  { apply NoDup_cons. split; [| apply NoDup_singleton].
    intros Hin. apply list_elem_of_singleton in Hin. discriminate Hin. }
  split; [exact Hdistinct | split; [reflexivity |]].
  apply (selectOperator_sets_next 0 "OR" twoConditions
           (FormCondition.mk "t-2" "spend" ">" JsNumber.zero (Some "AND"))
           Hdistinct eq_refl).
Defined.

(** ** The scheduler *)

Lemma scheduler_has_at_most_one_timer_witness :
  Scheduler.isRunning (scheduler_after calls) = true
  /\ length (Scheduler.timers (scheduler_after calls)) = 1
  /\ Scheduler.start (JsNumber.of_Z 30) (scheduler_after calls)
     = scheduler_after calls
  /\ Scheduler.timers (Scheduler.stop (scheduler_after calls)) = [].
Proof.
  pose proof (scheduler_has_at_most_one_timer calls) as Hone.
  cbv zeta in Hone.
  destruct Hone as (Hlength & _ & _ & Hagain & Hstopped & _).
  assert (Hrunning : Scheduler.isRunning (scheduler_after calls) = true)
    by reflexivity.
  split; [exact Hrunning | split; [| split]].
  - rewrite Hlength, Hrunning. reflexivity.
  - exact (Hagain (JsNumber.of_Z 30) Hrunning).
  - exact Hstopped.
Defined.

End FurtherRuns.
